(** * ExtHostWebviewViews: the extension-host side of webview views

    A shallow embedding of
    [src/vs/workbench/api/common/extHostWebviewView.ts]: the per-view
    wrapper class [ExtHostWebviewView] and the adapter class
    [ExtHostWebviewViews] that keeps the provider registry and the table of
    resolved views.

    Objects with identity (the view wrappers) live in a heap and are named
    by references, because the same wrapper is reachable both from the
    [_webviewViews] table and from the extension that received it.  What the
    code sends out of the file (RPC calls on the main-thread proxy, [fire]
    calls on emitters, calls into the webview factory and into the
    extension's provider) is recorded as a trace of events. *)

From stdpp Require Import gmap strings list fin_maps.

Set Default Proof Using "Type".

(** ** Values the file only passes around *)

(** [extHostProtocol.WebviewPanelHandle] is a string. *)
Abbreviation WebviewPanelHandle := string (only parsing).

(** Identity of an [ExtHostWebviewView] object: its index in the heap. *)
Abbreviation Ref := nat (only parsing).

(** The optional argument [webviewOptions] of
    [registerWebviewViewProvider]. *)
Record WebviewOptions := {
  retainContextWhenHidden : option bool
}.

(** How a call ends: it returns a value, or it throws.  For
    [throw new Error(msg)] the exception carries its message; an [async]
    function that throws returns a promise rejected with the exception. *)
Inductive Result (A : Type) :=
| Ok (a : A)
| Throw (msg : string).
Arguments Ok {A} a.
Arguments Throw {A} msg.

(** The collaborators that are declared in other files.  The code never
    looks inside a provider, an extension description, a cancellation token
    or the serialized view state; it creates webviews only through
    [ExtHostWebviews.createNewWebview].

    [provider_resolveWebviewView] is the method [resolveWebviewView] of a
    [vscode.WebviewViewProvider], extension code: how the call on the
    wrapper [view] ends once awaited, fulfilled or thrown/rejected with an
    error.  It is an arbitrary function of the call; since every call gets
    a new wrapper, it can end differently each time. *)
Class Host := {
  WebviewViewProvider : Type;
  IExtensionDescription : Type;
  CancellationToken : Type;
  ViewState : Type;
  ExtHostWebview : Type;
  createNewWebview : WebviewPanelHandle → IExtensionDescription → ExtHostWebview;
  provider_resolveWebviewView :
    WebviewViewProvider → Ref → ViewState → CancellationToken → Result unit
}.

(** The two emitters a view owns. *)
Inductive ViewEmitter := onDidChangeVisibility | onDidDispose.

Section Effects.
Context `{H : Host}.

(** Everything the code does to the outside, in program order.  An event
    records that the call is made; what the callee does with it (delivery
    to listeners by [Emitter], transport by the proxy) is not this
    file's. *)
Inductive Event :=
  (* this.#proxy.$setWebviewViewTitle(handle, value) *)
| Rpc_setWebviewViewTitle (handle : WebviewPanelHandle) (value : option string)
  (* this._proxy.$registerWebviewViewProvider(viewType, webviewOptions) *)
| Rpc_registerWebviewViewProvider (viewType : string)
    (webviewOptions : option WebviewOptions)
  (* this._proxy.$unregisterWebviewViewProvider(viewType) *)
| Rpc_unregisterWebviewViewProvider (viewType : string)
  (* emitter.fire() on the view [self] *)
| Fire (self : Ref) (emitter : ViewEmitter)
  (* super.dispose() of the view [self]: the base class Disposable *)
| SuperDispose (self : Ref)
  (* this._extHostWebview.createNewWebview(handle, {}, extension) *)
| CreateNewWebview (handle : WebviewPanelHandle) (extension : IExtensionDescription)
  (* provider.resolveWebviewView(view, { state }, cancellation) *)
| ResolveWebviewView (provider : WebviewViewProvider) (view : Ref)
    (state : ViewState) (cancellation : CancellationToken).

(** ** Exceptions, state and trace: a small monad *)

Record Outcome (S A : Type) := mkOutcome {
  result : Result A;
  final : S;
  trace : list Event
}.
Global Arguments mkOutcome {S A} _ _ _.
Global Arguments result {S A} _.
Global Arguments final {S A} _.
Global Arguments trace {S A} _.

(** A method over an object (or a store) of type [S]. *)
Definition M (S A : Type) : Type := S → Outcome S A.

Definition throw {S A} (msg : string) : M S A :=
  fun s => mkOutcome (Throw msg) s [].

Definition get {S} : M S S :=
  fun s => mkOutcome (Ok s) s [].

Definition put {S} (s' : S) : M S unit :=
  fun _ => mkOutcome (Ok tt) s' [].

Definition emit {S} (e : Event) : M S unit :=
  fun s => mkOutcome (Ok tt) s [e].

(** [await p] for a call that has ended as [answer]: its value, or its
    error thrown here. *)
Definition await {S A} (answer : Result A) : M S A :=
  fun s => mkOutcome answer s [].

#[global] Instance M_ret {S} : MRet (M S) :=
  fun A a s => mkOutcome (Ok a) s [].

(** Sequencing: an exception skips the rest, and keeps the state and the
    trace reached so far. *)
#[global] Instance M_bind {S} : MBind (M S) :=
  fun A B k m s =>
    let o := m s in
    match result o with
    | Throw msg => mkOutcome (Throw msg) (final o) (trace o)
    | Ok a =>
        let o' := k a (final o) in
        mkOutcome (result o') (final o') (trace o ++ trace o')
    end.

End Effects.

(** ** class ExtHostWebviewView *)

Module ExtHostWebviewView.
Section Class.
Context `{H : Host}.

(** The private fields.  [#proxy] is the one main-thread proxy shared by
    all objects; calls on it are events. *)
Record t := mk {
  _handle : WebviewPanelHandle;
  _viewType : string;
  _webview : ExtHostWebview;
  _isDisposed : bool;
  _isVisible : bool;
  _title : option string
}.

(** [constructor(handle, proxy, viewType, webview, isVisible)]:
    [#isDisposed = false], [#title] left undefined. *)
Definition constructor (handle : WebviewPanelHandle) (viewType : string)
    (webview : ExtHostWebview) (isVisible : bool) : t :=
  {| _handle := handle; _viewType := viewType; _webview := webview;
     _isDisposed := false; _isVisible := isVisible; _title := None |}.

Definition with_isDisposed (b : bool) (v : t) : t :=
  {| _handle := _handle v; _viewType := _viewType v; _webview := _webview v;
     _isDisposed := b; _isVisible := _isVisible v; _title := _title v |}.

Definition with_isVisible (b : bool) (v : t) : t :=
  {| _handle := _handle v; _viewType := _viewType v; _webview := _webview v;
     _isDisposed := _isDisposed v; _isVisible := b; _title := _title v |}.

Definition with_title (x : option string) (v : t) : t :=
  {| _handle := _handle v; _viewType := _viewType v; _webview := _webview v;
     _isDisposed := _isDisposed v; _isVisible := _isVisible v; _title := x |}.

(** [private assertNotDisposed()] *)
Definition assertNotDisposed : M t unit :=
  this ← get;
  if _isDisposed this then throw "Webview is disposed" else mret tt.

(** [public dispose()]; [self] is the identity of [this]. *)
Definition dispose (self : Ref) : M t unit :=
  this ← get;
  if _isDisposed this then mret tt
  else
    put (with_isDisposed true this);;
    emit (Fire self onDidDispose);;
    emit (SuperDispose self).

(** [public get title()] *)
Definition title : M t (option string) :=
  assertNotDisposed;;
  this ← get;
  mret (_title this).

(** [public set title(value)]; [!==] on [string | undefined] is equality
    of the values. *)
Definition set_title (value : option string) : M t unit :=
  assertNotDisposed;;
  this ← get;
  if decide (_title this ≠ value) then
    put (with_title value this);;
    emit (Rpc_setWebviewViewTitle (_handle this) value)
  else mret tt.

(** [public get visible()] *)
Definition visible : M t bool :=
  this ← get; mret (_isVisible this).

(** [public get webview()] *)
Definition webview : M t ExtHostWebview :=
  this ← get; mret (_webview this).

(** [public get viewType()] *)
Definition viewType : M t string :=
  this ← get; mret (_viewType this).

(** [_setVisible(visible)] *)
Definition _setVisible (self : Ref) (visible : bool) : M t unit :=
  this ← get;
  if decide (visible = _isVisible this) then mret tt
  else
    put (with_isVisible visible this);;
    emit (Fire self onDidChangeVisibility).

End Class.
End ExtHostWebviewView.

(** ** class ExtHostWebviewViews *)

(** [new extHostTypes.Disposable(() => { ... })] as returned by
    [registerWebviewViewProvider]: the closure, given by the one variable
    it captures. *)
Record Disposable := {
  captured_viewType : string
}.

Module ExtHostWebviewViews.
Section Class.
Context `{H : Host}.

(** A value of the [_viewProviders] map. *)
Record Entry := {
  provider : WebviewViewProvider;
  extension : IExtensionDescription
}.

(** The two maps of the object, and the heap of the view wrappers it has
    created; [_webviewViews] holds references into the heap. *)
Record t := mk {
  _viewProviders : gmap string Entry;
  _webviewViews : gmap string Ref;
  heap : list ExtHostWebviewView.t
}.

(** The object after its constructor. *)
Definition constructor : t :=
  {| _viewProviders := ∅; _webviewViews := ∅; heap := [] |}.

Definition with_viewProviders (m : gmap string Entry) (s : t) : t :=
  {| _viewProviders := m; _webviewViews := _webviewViews s; heap := heap s |}.

Definition with_webviewViews (m : gmap string Ref) (s : t) : t :=
  {| _viewProviders := _viewProviders s; _webviewViews := m; heap := heap s |}.

Definition with_heap (h : list ExtHostWebviewView.t) (s : t) : t :=
  {| _viewProviders := _viewProviders s; _webviewViews := _webviewViews s;
     heap := h |}.

(** [new ExtHostWebviewView(...)]: the fresh object gets the next
    reference. *)
Definition new (v : ExtHostWebviewView.t) : M t Ref :=
  this ← get;
  put (with_heap (heap this ++ [v]) this);;
  mret (length (heap this)).

(** A method call [view.m(...)] on the object behind [r]: the method runs
    on that object and its changes are written back.  A reference that
    names no object is never produced by this file (see
    [reachable_wellformed]); the case gets the outcome JavaScript gives a
    call on [undefined]. *)
Definition call {A} (r : Ref) (m : M ExtHostWebviewView.t A) : M t A :=
  fun s =>
    match heap s !! r with
    | Some v =>
        let o := m v in
        mkOutcome (result o) (with_heap (<[r := final o]> (heap s)) s) (trace o)
    | None => mkOutcome (Throw "TypeError") s []
    end.

(** The closure handed to [new extHostTypes.Disposable] by
    [registerWebviewViewProvider]. *)
Definition callOnDispose (viewType : string) : M t unit :=
  this ← get;
  put (with_viewProviders (delete viewType (_viewProviders this)) this);;
  emit (Rpc_unregisterWebviewViewProvider viewType).

(** Modelled from the spec: the class [extHostTypes.Disposable] is
    declared in another file; disposing the object returned by
    [registerWebviewViewProvider] runs the closure it was built from. *)
Definition Disposable_dispose (d : Disposable) : M t unit :=
  callOnDispose (captured_viewType d).

(** [public registerWebviewViewProvider(extension, viewType, provider,
    webviewOptions?)] *)
Definition registerWebviewViewProvider (extension : IExtensionDescription)
    (viewType : string) (provider : WebviewViewProvider)
    (webviewOptions : option WebviewOptions) : M t Disposable :=
  this ← get;
  if decide (is_Some (_viewProviders this !! viewType)) then
    throw ("View provider for '" +:+ viewType +:+ "' already registered")
  else
    put (with_viewProviders
           (<[viewType := {| provider := provider; extension := extension |}]>
              (_viewProviders this)) this);;
    emit (Rpc_registerWebviewViewProvider viewType webviewOptions);;
    mret {| captured_viewType := viewType |}.

(** [async $resolveWebviewView(webviewHandle, viewType, state,
    cancellation)].  The call of the provider is the last thing the
    function does: what the extension does to this object in it, and
    afterwards, are later operations on the same object.  The function
    ends as the awaited call ends: an error of the provider is thrown on,
    after the wrapper has been created and entered in [_webviewViews]. *)
Definition resolveWebviewView (webviewHandle : WebviewPanelHandle)
    (viewType : string) (state : ViewState)
    (cancellation : CancellationToken) : M t unit :=
  this ← get;
  match _viewProviders this !! viewType with
  | None => throw ("No view provider found for '" +:+ viewType +:+ "'")
  | Some entry =>
      emit (CreateNewWebview webviewHandle (extension entry));;
      let webview := createNewWebview webviewHandle (extension entry) in
      revivedView ←
        new (ExtHostWebviewView.constructor webviewHandle viewType webview true);
      this ← get;
      put (with_webviewViews
             (<[webviewHandle := revivedView]> (_webviewViews this)) this);;
      emit (ResolveWebviewView (provider entry) revivedView state cancellation);;
      await (provider_resolveWebviewView
               (provider entry) revivedView state cancellation)
  end.

(** [private getWebviewView(handle)] *)
Definition getWebviewView (handle : WebviewPanelHandle) : M t Ref :=
  this ← get;
  match _webviewViews this !! handle with
  | None => throw "No webview found"
  | Some entry => mret entry
  end.

(** [async $onDidChangeWebviewViewVisibility(webviewHandle, visible)] *)
Definition onDidChangeWebviewViewVisibility (webviewHandle : WebviewPanelHandle)
    (visible : bool) : M t unit :=
  webviewView ← getWebviewView webviewHandle;
  call webviewView (ExtHostWebviewView._setVisible webviewView visible).

(** [async $disposeWebviewView(webviewHandle)] *)
Definition disposeWebviewView (webviewHandle : WebviewPanelHandle) : M t unit :=
  webviewView ← getWebviewView webviewHandle;
  this ← get;
  put (with_webviewViews (delete webviewHandle (_webviewViews this)) this);;
  call webviewView (ExtHostWebviewView.dispose webviewView).

End Class.
End ExtHostWebviewViews.

(** ** Sequences of operations

    What can happen to one [ExtHostWebviewViews] object: calls of its
    public methods by the extension host and by the main thread, and calls
    by the extension on the objects it was handed (the registration
    disposables and the view wrappers).

    Each method writes its fields before it calls out ([fire], the
    provider, the proxy), and writes nothing afterwards.  So whatever
    extension code does to this object from inside such a call finds the
    state the method ends with, and is a later operation of the
    sequence. *)

Section Operations.
Context `{H : Host}.

Inductive Op :=
| Op_registerWebviewViewProvider (extension : IExtensionDescription)
    (viewType : string) (provider : WebviewViewProvider)
    (webviewOptions : option WebviewOptions)
| Op_Disposable_dispose (d : Disposable)
| Op_resolveWebviewView (webviewHandle : WebviewPanelHandle) (viewType : string)
    (state : ViewState) (cancellation : CancellationToken)
| Op_onDidChangeWebviewViewVisibility (webviewHandle : WebviewPanelHandle)
    (visible : bool)
| Op_disposeWebviewView (webviewHandle : WebviewPanelHandle)
| Op_view_dispose (view : Ref)
| Op_view_set_title (view : Ref) (value : option string).

(** Forget the returned value of a call. *)
Definition void {S A} (m : M S A) : M S unit := m;; mret tt.

(** One operation.  An exception ends the operation, not the sequence:
    the caller is another process or the extension. *)
Definition step (op : Op) : M ExtHostWebviewViews.t unit :=
  match op with
  | Op_registerWebviewViewProvider extension viewType provider webviewOptions =>
      void (ExtHostWebviewViews.registerWebviewViewProvider
              extension viewType provider webviewOptions)
  | Op_Disposable_dispose d => ExtHostWebviewViews.Disposable_dispose d
  | Op_resolveWebviewView webviewHandle viewType state cancellation =>
      ExtHostWebviewViews.resolveWebviewView webviewHandle viewType state cancellation
  | Op_onDidChangeWebviewViewVisibility webviewHandle visible =>
      ExtHostWebviewViews.onDidChangeWebviewViewVisibility webviewHandle visible
  | Op_disposeWebviewView webviewHandle =>
      ExtHostWebviewViews.disposeWebviewView webviewHandle
  | Op_view_dispose view =>
      ExtHostWebviewViews.call view (ExtHostWebviewView.dispose view)
  | Op_view_set_title view value =>
      ExtHostWebviewViews.call view (ExtHostWebviewView.set_title value)
  end.

(** The state after a sequence of operations, and everything it emitted. *)
Fixpoint run (ops : list Op) (s : ExtHostWebviewViews.t)
    : ExtHostWebviewViews.t * list Event :=
  match ops with
  | [] => (s, [])
  | op :: ops' =>
      let o := step op s in
      let '(s', tr) := run ops' (final o) in
      (s', trace o ++ tr)
  end.

Definition state_after (ops : list Op) (s : ExtHostWebviewViews.t)
    : ExtHostWebviewViews.t :=
  fst (run ops s).

End Operations.

(** ** Notions used in the properties *)

Section Notions.
Context `{H : Host}.
Import ExtHostWebviewViews.

Implicit Types (s : ExtHostWebviewViews.t) (r : Ref)
  (hp : list ExtHostWebviewView.t).

(** A method keeps the handle of its object, and never revives it. *)
Definition keeps_identity {A} (m : M ExtHostWebviewView.t A) : Prop :=
  ∀ v,
    ExtHostWebviewView._handle (final (m v)) = ExtHostWebviewView._handle v
    ∧ (ExtHostWebviewView._isDisposed v = true →
       ExtHostWebviewView._isDisposed (final (m v)) = true).

(** Every entry of [_webviewViews] names an object of the heap, and is
    filed under that object's own [#handle]. *)
Definition wellformed s : Prop :=
  ∀ handle r, _webviewViews s !! handle = Some r →
    ∃ v, heap s !! r = Some v ∧ ExtHostWebviewView._handle v = handle.

(** Is [r] a wrapper for [handle] that has not been disposed? *)
Definition live_for s (handle : WebviewPanelHandle) r : bool :=
  match heap s !! r with
  | Some v =>
      bool_decide (ExtHostWebviewView._handle v = handle)
      && negb (ExtHostWebviewView._isDisposed v)
  | None => false
  end.

(** Objects are never removed from the heap, keep their handle, and stay
    disposed once they are. *)
Definition extends hp hp' : Prop :=
  ∀ r v, hp !! r = Some v →
    ∃ v', hp' !! r = Some v'
      ∧ ExtHostWebviewView._handle v' = ExtHostWebviewView._handle v
      ∧ (ExtHostWebviewView._isDisposed v = true →
         ExtHostWebviewView._isDisposed v' = true).

(** The entries of [_webviewViews] whose wrapper is a live wrapper for
    [handle], wherever in the table they are filed. *)
Definition live_entries (s : ExtHostWebviewViews.t)
    (handle : WebviewPanelHandle) : gmap string Ref :=
  filter (fun kr => live_for s handle kr.2 = true) (_webviewViews s).

(** The object behind [r] exists and has been disposed. *)
Definition disposed_at s r : Prop :=
  ∃ v, heap s !! r = Some v ∧ ExtHostWebviewView._isDisposed v = true.

(** [n] calls of a method, one after the other. *)
Fixpoint times {S} (n : nat) (m : M S unit) : M S unit :=
  match n with
  | 0 => mret tt
  | S n' => m;; times n' m
  end.


(** The last sentence of C10 read as a law: once [dispose] has been called
    on a view, [visible] returns, whatever happens next, the value the view
    had at that moment. *)
Definition visible_frozen_by_dispose : Prop :=
  ∀ s r v (ops : list Op),
    heap s !! r = Some v →
    result (call r ExtHostWebviewView.visible
              (state_after (Op_view_dispose r :: ops) s))
      = Ok (ExtHostWebviewView._isVisible v).

End Notions.

(** ** A concrete host, for running the model *)

(** Providers, extensions and tokens are named by numbers, the view state
    is a string, and a webview is the pair it was created from.  Provider 0
    fails: its [resolveWebviewView] rejects with an error whose message is
    the state it was given.  Every other provider fulfils. *)
Definition test_host : Host := {|
  WebviewViewProvider := nat;
  IExtensionDescription := nat;
  CancellationToken := nat;
  ViewState := string;
  ExtHostWebview := string * nat;
  createNewWebview := fun handle extension => (handle, extension);
  provider_resolveWebviewView := fun provider view state cancellation =>
    match provider with
    | 0 => Throw state
    | _ => Ok tt
    end
|}.

(** ** Concrete states on the test host *)

(** An extension (7) registers a provider (3) for the view type "cats",
    and the main thread asks to resolve a view of that type under the
    handle "h1", with cancellation token 42. *)
Definition cats_resolved : @ExtHostWebviewViews.t test_host :=
  state_after (H := test_host)
    [@Op_registerWebviewViewProvider test_host 7 "cats" 3 None;
     @Op_resolveWebviewView test_host "h1" "cats" "st" 42]
    ExtHostWebviewViews.constructor.

(** Then the extension disposes the view it was handed, and the main
    thread relays that the view was hidden. *)
Definition cats_disposed_then_hidden : @ExtHostWebviewViews.t test_host :=
  state_after (H := test_host)
    [@Op_view_dispose test_host 0;
     @Op_onDidChangeWebviewViewVisibility test_host "h1" false]
    cats_resolved.

(** The wrapper that resolving "h1" creates. *)
Definition cats_view : @ExtHostWebviewView.t test_host :=
  @ExtHostWebviewView.constructor test_host "h1" "cats" ("h1", 7) true.

(** Only the provider is registered. *)
Definition cats_registered : @ExtHostWebviewViews.t test_host :=
  state_after (H := test_host)
    [@Op_registerWebviewViewProvider test_host 7 "cats" 3 None]
    ExtHostWebviewViews.constructor.

(** ** Observations on operations and traces *)

Section Observers.
Context `{H : Host}.

(** Everything a sequence of operations emitted. *)
Definition trace_after (ops : list Op) (s : ExtHostWebviewViews.t)
    : list Event :=
  snd (run ops s).

(** The operations on the provider registry. *)
Definition is_registry_op (op : Op) : bool :=
  match op with
  | Op_registerWebviewViewProvider _ _ _ _ | Op_Disposable_dispose _ => true
  | _ => false
  end.

(** Does [op] dispose a registration of [viewType]? *)
Definition unregisters (viewType : string) (op : Op) : bool :=
  match op with
  | Op_Disposable_dispose d => bool_decide (captured_viewType d = viewType)
  | _ => false
  end.

(** Is [op] a [$resolveWebviewView] for [handle]? *)
Definition resolves (handle : WebviewPanelHandle) (op : Op) : bool :=
  match op with
  | Op_resolveWebviewView webviewHandle _ _ _ =>
      bool_decide (webviewHandle = handle)
  | _ => false
  end.

(** Is [op] a call the extension makes on the wrapper [r] itself? *)
Definition calls_view (r : Ref) (op : Op) : bool :=
  match op with
  | Op_view_dispose view | Op_view_set_title view _ => bool_decide (view = r)
  | _ => false
  end.

(** No entry of [_webviewViews] holds the wrapper [r]. *)
Definition unfiled (s : ExtHostWebviewViews.t) (r : Ref) : Prop :=
  ∀ handle, ExtHostWebviewViews._webviewViews s !! handle ≠ Some r.

(** The wrappers handed to providers, in the order of the calls. *)
Definition resolved_views (tr : list Event) : list Ref :=
  omap (fun e =>
          match e with
          | ResolveWebviewView _ view _ _ => Some view
          | _ => None
          end) tr.

(** Is [e] the call [fire()] on the emitter [emitter] of the view [r]? *)
Definition is_fire (r : Ref) (emitter : ViewEmitter) (e : Event) : bool :=
  match e, emitter with
  | Fire r' onDidDispose, onDidDispose => bool_decide (r' = r)
  | Fire r' onDidChangeVisibility, onDidChangeVisibility => bool_decide (r' = r)
  | _, _ => false
  end.

Definition count_fires (r : Ref) (emitter : ViewEmitter) (tr : list Event)
    : nat :=
  length (List.filter (is_fire r emitter) tr).

(** Does the object behind [r] exist with [#isDisposed] set? *)
Definition disposed_in (s : ExtHostWebviewViews.t) (r : Ref) : bool :=
  match ExtHostWebviewViews.heap s !! r with
  | Some v => ExtHostWebviewView._isDisposed v
  | None => false
  end.

(** The view types the main thread holds a provider for, if it starts
    from [known] and follows the register and unregister messages. *)
Definition registered_on_main (known : gset string) (tr : list Event)
    : gset string :=
  fold_left
    (fun acc e =>
       match e with
       | Rpc_registerWebviewViewProvider viewType _ => {[viewType]} ∪ acc
       | Rpc_unregisterWebviewViewProvider viewType => acc ∖ {[viewType]}
       | _ => acc
       end) tr known.

(** The title the main thread shows, if it starts from [shown] and
    follows the title messages. *)
Definition title_on_main (shown : option string) (tr : list Event)
    : option string :=
  fold_left
    (fun acc e =>
       match e with
       | Rpc_setWebviewViewTitle _ value => value
       | _ => acc
       end) tr shown.

(** [view.title = x] for each [x] of the list, in order. *)
Fixpoint assign_titles (xs : list (option string))
    : M ExtHostWebviewView.t unit :=
  match xs with
  | [] => mret tt
  | x :: xs' => ExtHostWebviewView.set_title x;; assign_titles xs'
  end.

(** [view._setVisible(b)] for each [b] of the list, in order. *)
Fixpoint relay_visibility (self : Ref) (bs : list bool)
    : M ExtHostWebviewView.t unit :=
  match bs with
  | [] => mret tt
  | b :: bs' => ExtHostWebviewView._setVisible self b;; relay_visibility self bs'
  end.

(** How often the value changes along [b0 :: bs]. *)
Fixpoint changes (b0 : bool) (bs : list bool) : nat :=
  match bs with
  | [] => 0
  | b :: bs' => (if bool_decide (b = b0) then 0 else 1) + changes b bs'
  end.

(** [v'] is [v] later on: the readonly fields are the same, and if [v]
    was disposed so is [v'], with the same title. *)
Definition later_of (v v' : ExtHostWebviewView.t) : Prop :=
  ExtHostWebviewView._handle v' = ExtHostWebviewView._handle v
  ∧ ExtHostWebviewView._viewType v' = ExtHostWebviewView._viewType v
  ∧ ExtHostWebviewView._webview v' = ExtHostWebviewView._webview v
  ∧ (ExtHostWebviewView._isDisposed v = true →
     ExtHostWebviewView._isDisposed v' = true
     ∧ ExtHostWebviewView._title v' = ExtHostWebviewView._title v).

End Observers.

(** The provider that fails (0) is registered for "cats". *)
Definition cats_failing : @ExtHostWebviewViews.t test_host :=
  state_after (H := test_host)
    [@Op_registerWebviewViewProvider test_host 7 "cats" 0 None]
    ExtHostWebviewViews.constructor.

(** * Properties *)

(** Unfold the monad so that a method becomes a function of the state. *)
Ltac run_monad :=
  unfold mbind, M_bind, mret, M_ret, get, put, emit, throw, await; simpl.

Create HintDb webview discriminated.

(** A step that returns normally hands over to the rest. *)
Lemma bind_Ok `{H : Host} {S A B} (m : M S A) (k : A → M S B) (x x' : S)
    (a : A) (tr : list Event) :
  m x = mkOutcome (Ok a) x' tr →
  (m ≫= k) x =
    mkOutcome (result (k a x')) (final (k a x')) (tr ++ trace (k a x')).
Proof. intros Hm. unfold mbind, M_bind. by rewrite Hm. Qed.

(** ** The methods of one view *)

Section ViewFacts.
Context `{H : Host}.
Import ExtHostWebviewView.

Implicit Types (v : ExtHostWebviewView.t) (self : Ref).

Lemma dispose_live self v :
  _isDisposed v = false →
  dispose self v =
    mkOutcome (Ok tt) (with_isDisposed true v)
      [Fire self onDidDispose; SuperDispose self].
Proof. intros Hd. unfold dispose. run_monad. by rewrite Hd. Qed.

Lemma dispose_disposed self v :
  _isDisposed v = true → dispose self v = mkOutcome (Ok tt) v [].
Proof. intros Hd. unfold dispose. run_monad. by rewrite Hd. Qed.

Lemma dispose_marks self v : _isDisposed (final (dispose self v)) = true.
Proof.
  destruct (_isDisposed v) eqn:Hd.
  - by rewrite dispose_disposed.
  - by rewrite dispose_live.
Qed.

Lemma title_live v :
  _isDisposed v = false → title v = mkOutcome (Ok (_title v)) v [].
Proof.
  intros Hd. unfold title, assertNotDisposed. run_monad. by rewrite Hd.
Qed.

Lemma title_disposed v :
  _isDisposed v = true →
  title v = mkOutcome (Throw "Webview is disposed") v [].
Proof.
  intros Hd. unfold title, assertNotDisposed. run_monad. by rewrite Hd.
Qed.

Lemma set_title_disposed value v :
  _isDisposed v = true →
  set_title value v = mkOutcome (Throw "Webview is disposed") v [].
Proof.
  intros Hd. unfold set_title, assertNotDisposed. run_monad. by rewrite Hd.
Qed.

Lemma set_title_same value v :
  _isDisposed v = false → _title v = value →
  set_title value v = mkOutcome (Ok tt) v [].
Proof.
  intros Hd Ht. unfold set_title, assertNotDisposed. run_monad.
  rewrite Hd. simpl.
  case_decide; [done | reflexivity].
Qed.

Lemma set_title_other value v :
  _isDisposed v = false → _title v ≠ value →
  set_title value v =
    mkOutcome (Ok tt) (with_title value v)
      [Rpc_setWebviewViewTitle (_handle v) value].
Proof.
  intros Hd Ht. unfold set_title, assertNotDisposed. run_monad.
  rewrite Hd. simpl.
  case_decide; [reflexivity | done].
Qed.

Lemma setVisible_same self b v :
  b = _isVisible v → _setVisible self b v = mkOutcome (Ok tt) v [].
Proof.
  intros Hb. unfold _setVisible. run_monad. case_decide; [reflexivity | done].
Qed.

Lemma setVisible_other self b v :
  b ≠ _isVisible v →
  _setVisible self b v =
    mkOutcome (Ok tt) (with_isVisible b v) [Fire self onDidChangeVisibility].
Proof.
  intros Hb. unfold _setVisible. run_monad. case_decide; [done | reflexivity].
Qed.

Lemma setVisible_final self b v :
  _isVisible (final (_setVisible self b v)) = b.
Proof.
  destruct (decide (b = _isVisible v)) as [Hb|Hb].
  - by rewrite setVisible_same.
  - by rewrite setVisible_other.
Qed.

Lemma dispose_keeps self : keeps_identity (dispose self).
Proof.
  intros v. destruct (_isDisposed v) eqn:Hd.
  - rewrite dispose_disposed by done. auto.
  - rewrite dispose_live by done. auto.
Qed.

Lemma setVisible_keeps self b : keeps_identity (_setVisible self b).
Proof.
  intros v. destruct (decide (b = _isVisible v)) as [Hb|Hb].
  - rewrite setVisible_same by done. auto.
  - rewrite setVisible_other by done. auto.
Qed.

Lemma set_title_keeps value : keeps_identity (set_title value).
Proof.
  intros v. destruct (_isDisposed v) eqn:Hd.
  - rewrite set_title_disposed by done. auto.
  - destruct (decide (_title v = value)) as [Ht|Ht].
    + rewrite set_title_same by done. simpl. split; [done | congruence].
    + rewrite set_title_other by done. simpl. split; [done | congruence].
Qed.

End ViewFacts.

#[export] Hint Resolve dispose_keeps setVisible_keeps set_title_keeps : webview.

(** ** The methods of the adapter, as equations *)

Section AdapterFacts.
Context `{H : Host}.
Import ExtHostWebviewViews.

Implicit Types (s : ExtHostWebviewViews.t) (r : Ref).

Lemma call_Some {A} r (m : M ExtHostWebviewView.t A) s v :
  heap s !! r = Some v →
  call r m s =
    mkOutcome (result (m v)) (with_heap (<[r := final (m v)]> (heap s)) s)
      (trace (m v)).
Proof. intros Hv. unfold call. by rewrite Hv. Qed.

Lemma call_None {A} r (m : M ExtHostWebviewView.t A) s :
  heap s !! r = None → call r m s = mkOutcome (Throw "TypeError") s [].
Proof. intros Hv. unfold call. by rewrite Hv. Qed.

Lemma with_heap_id s : with_heap (heap s) s = s.
Proof. by destruct s. Qed.

(** A method that leaves its object alone leaves the whole state alone. *)
Lemma call_unchanged {A} r (m : M ExtHostWebviewView.t A) s v :
  heap s !! r = Some v → final (m v) = v →
  call r m s = mkOutcome (result (m v)) s (trace (m v)).
Proof.
  intros Hv Hf. rewrite (call_Some _ _ _ _ Hv), Hf.
  by rewrite list_insert_id, with_heap_id.
Qed.

Lemma register_taken extension viewType provider webviewOptions s :
  is_Some (_viewProviders s !! viewType) →
  registerWebviewViewProvider extension viewType provider webviewOptions s =
    mkOutcome
      (Throw ("View provider for '" +:+ viewType +:+ "' already registered"))
      s [].
Proof.
  intros Hs. unfold registerWebviewViewProvider. run_monad.
  case_decide; [reflexivity | done].
Qed.

Lemma register_fresh extension viewType provider webviewOptions s :
  _viewProviders s !! viewType = None →
  registerWebviewViewProvider extension viewType provider webviewOptions s =
    mkOutcome (Ok {| captured_viewType := viewType |})
      (with_viewProviders
         (<[viewType := {| provider := provider; extension := extension |}]>
            (_viewProviders s)) s)
      [Rpc_registerWebviewViewProvider viewType webviewOptions].
Proof.
  intros Hs. unfold registerWebviewViewProvider. run_monad.
  case_decide as Hd; [|reflexivity].
  rewrite Hs in Hd. by destruct Hd.
Qed.

Lemma resolve_unregistered webviewHandle viewType state cancellation s :
  _viewProviders s !! viewType = None →
  resolveWebviewView webviewHandle viewType state cancellation s =
    mkOutcome (Throw ("No view provider found for '" +:+ viewType +:+ "'")) s [].
Proof. intros Hs. unfold resolveWebviewView. run_monad. by rewrite Hs. Qed.

Lemma resolve_registered webviewHandle viewType state cancellation s entry :
  _viewProviders s !! viewType = Some entry →
  resolveWebviewView webviewHandle viewType state cancellation s =
    mkOutcome
      (provider_resolveWebviewView (provider entry) (length (heap s))
         state cancellation)
      {| _viewProviders := _viewProviders s;
         _webviewViews := <[webviewHandle := length (heap s)]> (_webviewViews s);
         heap := heap s ++
           [ExtHostWebviewView.constructor webviewHandle viewType
              (createNewWebview webviewHandle (extension entry)) true] |}
      [CreateNewWebview webviewHandle (extension entry);
       ResolveWebviewView (provider entry) (length (heap s)) state cancellation].
Proof. intros Hs. unfold resolveWebviewView. run_monad. by rewrite Hs. Qed.

Lemma visibility_unknown webviewHandle visible s :
  _webviewViews s !! webviewHandle = None →
  onDidChangeWebviewViewVisibility webviewHandle visible s =
    mkOutcome (Throw "No webview found") s [].
Proof.
  intros Hs. unfold onDidChangeWebviewViewVisibility, getWebviewView.
  run_monad. by rewrite Hs.
Qed.

Lemma visibility_known webviewHandle visible s r :
  _webviewViews s !! webviewHandle = Some r →
  onDidChangeWebviewViewVisibility webviewHandle visible s =
    call r (ExtHostWebviewView._setVisible r visible) s.
Proof.
  intros Hs. unfold onDidChangeWebviewViewVisibility, getWebviewView.
  run_monad. rewrite Hs. simpl.
  by destruct (call r (ExtHostWebviewView._setVisible r visible) s) as [[]].
Qed.

Lemma disposeWebviewView_unknown webviewHandle s :
  _webviewViews s !! webviewHandle = None →
  disposeWebviewView webviewHandle s =
    mkOutcome (Throw "No webview found") s [].
Proof.
  intros Hs. unfold disposeWebviewView, getWebviewView.
  run_monad. by rewrite Hs.
Qed.

Lemma disposeWebviewView_known webviewHandle s r :
  _webviewViews s !! webviewHandle = Some r →
  disposeWebviewView webviewHandle s =
    call r (ExtHostWebviewView.dispose r)
      (with_webviewViews (delete webviewHandle (_webviewViews s)) s).
Proof.
  intros Hs. unfold disposeWebviewView, getWebviewView.
  run_monad. rewrite Hs. simpl.
  by destruct (call r (ExtHostWebviewView.dispose r) _) as [[]].
Qed.

End AdapterFacts.

(** ** Invariants of the adapter over sequences of operations *)

Section Invariants.
Context `{H : Host}.
Import ExtHostWebviewViews.

Implicit Types (s : ExtHostWebviewViews.t) (r : Ref)
  (hp : list ExtHostWebviewView.t).

Lemma extends_refl hp : extends hp hp.
Proof. intros r v Hv. eauto. Qed.

Lemma extends_trans hp1 hp2 hp3 :
  extends hp1 hp2 → extends hp2 hp3 → extends hp1 hp3.
Proof.
  intros H12 H23 r v Hv.
  destruct (H12 r v Hv) as (v2 & Hv2 & Hh2 & Hd2).
  destruct (H23 r v2 Hv2) as (v3 & Hv3 & Hh3 & Hd3).
  exists v3. split; [done|]. split; [congruence | auto].
Qed.

Lemma extends_app hp v : extends hp (hp ++ [v]).
Proof.
  intros r w Hw. exists w. split; [|done].
  rewrite lookup_app_l; [done|]. by eapply lookup_lt_Some.
Qed.

Lemma extends_insert hp r v (m : M ExtHostWebviewView.t unit) :
  keeps_identity m → hp !! r = Some v → extends hp (<[r := final (m v)]> hp).
Proof.
  intros Hm Hv r' w Hw. destruct (decide (r' = r)) as [->|Hne].
  - exists (final (m v)). rewrite list_lookup_insert_eq
      by (by eapply lookup_lt_Some).
    assert (w = v) as -> by congruence.
    destruct (Hm v) as [Hh Hd]. done.
  - exists w. by rewrite list_lookup_insert_ne.
Qed.

Lemma call_extends r (m : M ExtHostWebviewView.t unit) s :
  keeps_identity m → extends (heap s) (heap (final (call r m s))).
Proof.
  intros Hm. destruct (heap s !! r) as [v|] eqn:Hv.
  - rewrite (call_Some _ _ _ _ Hv). simpl. by apply extends_insert.
  - rewrite call_None by done. apply extends_refl.
Qed.

Lemma call_webviewViews {A} r (m : M ExtHostWebviewView.t A) s :
  _webviewViews (final (call r m s)) = _webviewViews s.
Proof. unfold call. by destruct (heap s !! r). Qed.

Lemma void_final {S A} (m : M S A) (x : S) : final (void m x) = final (m x).
Proof. unfold void. run_monad. by destruct (result (m x)). Qed.

(** Well-formedness only looks at the view table and the heap. *)
Lemma wellformed_mono s s' :
  wellformed s →
  (∀ handle r, _webviewViews s' !! handle = Some r →
     _webviewViews s !! handle = Some r) →
  extends (heap s) (heap s') →
  wellformed s'.
Proof.
  intros Hwf Hsub Hext handle r Hr.
  destruct (Hwf handle r (Hsub _ _ Hr)) as (v & Hv & Hh).
  destruct (Hext r v Hv) as (v' & Hv' & Hh' & _).
  exists v'. split; [done | congruence].
Qed.

Lemma wellformed_constructor : wellformed constructor.
Proof. intros handle r Hr. simpl in Hr. by rewrite lookup_empty in Hr. Qed.

Lemma wellformed_call r (m : M ExtHostWebviewView.t unit) s :
  keeps_identity m → wellformed s → wellformed (final (call r m s)).
Proof.
  intros Hm Hwf. eapply wellformed_mono; [exact Hwf| |by apply call_extends].
  intros handle r'. by rewrite call_webviewViews.
Qed.

Lemma wellformed_resolve webviewHandle viewType state cancellation s :
  wellformed s →
  wellformed (final (resolveWebviewView webviewHandle viewType state cancellation s)).
Proof.
  intros Hwf. destruct (_viewProviders s !! viewType) as [entry|] eqn:He.
  - rewrite (resolve_registered _ _ _ _ _ _ He). simpl.
    intros handle r. simpl. rewrite lookup_insert.
    case_decide as Hk.
    + intros [= <-]. subst handle. eexists. split.
      * rewrite lookup_app_r by done. rewrite Nat.sub_diag. reflexivity.
      * reflexivity.
    + intros Hr. destruct (Hwf _ _ Hr) as (v & Hv & Hh).
      exists v. split; [|done].
      rewrite lookup_app_l; [done|]. by eapply lookup_lt_Some.
  - by rewrite resolve_unregistered.
Qed.

Lemma wellformed_step op s : wellformed s → wellformed (final (step op s)).
Proof.
  intros Hwf. destruct op; cbn [step].
  - rewrite void_final.
    destruct (_viewProviders s !! viewType) eqn:He.
    + by rewrite register_taken.
    + by rewrite register_fresh.
  - done.
  - by apply wellformed_resolve.
  - destruct (_webviewViews s !! webviewHandle) as [r|] eqn:Hr.
    + rewrite (visibility_known _ _ _ _ Hr).
      apply wellformed_call; auto with webview.
    + by rewrite visibility_unknown.
  - destruct (_webviewViews s !! webviewHandle) as [r|] eqn:Hr.
    + rewrite (disposeWebviewView_known _ _ _ Hr).
      apply wellformed_call; [auto with webview|].
      eapply wellformed_mono; [exact Hwf| |apply extends_refl].
      intros handle r'. simpl. rewrite lookup_delete.
      by case_decide.
    + by rewrite disposeWebviewView_unknown.
  - apply wellformed_call; auto with webview.
  - apply wellformed_call; auto with webview.
Qed.

Lemma state_after_cons op ops s :
  state_after (op :: ops) s = state_after ops (final (step op s)).
Proof.
  unfold state_after. simpl. by destruct (run ops (final (step op s))).
Qed.

Lemma wellformed_run ops s : wellformed s → wellformed (state_after ops s).
Proof.
  revert s. induction ops as [|op ops IH]; intros s Hwf; [done|].
  rewrite state_after_cons. apply IH. by apply wellformed_step.
Qed.

(** Every state the object can reach is well-formed. *)
Lemma reachable_wellformed ops : wellformed (state_after ops constructor).
Proof. apply wellformed_run, wellformed_constructor. Qed.

End Invariants.

(** ** C1: one live wrapper per handle *)

Section OneLiveWrapper.
Context `{H : Host}.
Import ExtHostWebviewViews.

(** In a well-formed state the only candidate is the entry under the key
    [handle] itself. *)
Lemma live_entries_wellformed s handle :
  wellformed s →
  live_entries s handle =
    match _webviewViews s !! handle with
    | Some r => if live_for s handle r then {[handle := r]} else ∅
    | None => ∅
    end.
Proof.
  intros Hwf. apply map_eq. intros k. apply option_eq. intros r.
  unfold live_entries. rewrite map_lookup_filter_Some. simpl. split.
  - intros [Hk Hlive].
    assert (k = handle) as ->.
    { destruct (Hwf k r Hk) as (v & Hv & Hh).
      unfold live_for in Hlive. rewrite Hv in Hlive.
      apply andb_true_iff in Hlive as [Hhd _].
      apply bool_decide_eq_true in Hhd. congruence. }
    rewrite Hk, Hlive. apply lookup_singleton_eq.
  - destruct (_webviewViews s !! handle) as [r'|] eqn:Hr';
      [|by rewrite lookup_empty].
    destruct (live_for s handle r') eqn:Hlive; [|by rewrite lookup_empty].
    intros [-> ->]%lookup_singleton_Some. done.
Qed.

Lemma live_entries_size s handle :
  wellformed s → size (live_entries s handle) ≤ 1.
Proof.
  intros Hwf. rewrite live_entries_wellformed by done.
  destruct (_webviewViews s !! handle) as [r|];
    [destruct (live_for s handle r)|];
    rewrite ?map_size_singleton, ?map_size_empty; lia.
Qed.

(** C1. After every sequence of operations on a new [ExtHostWebviewViews]
    (among them [$resolveWebviewView], [$disposeWebviewView] and
    [dispose] of a view by the extension), every entry of [_webviewViews]
    names an existing wrapper filed under the wrapper's own handle, and for
    each handle the table holds at most one wrapper for it that is not yet
    disposed: the one under that key, if it is live. *)
Theorem one_live_wrapper_per_handle (ops : list Op)
    (handle : WebviewPanelHandle) :
  let s := state_after ops constructor in
  wellformed s
  ∧ size (live_entries s handle) ≤ 1
  ∧ live_entries s handle =
      match _webviewViews s !! handle with
      | Some r => if live_for s handle r then {[handle := r]} else ∅
      | None => ∅
      end.
Proof.
  intros s. pose proof (reachable_wellformed ops) as Hwf.
  split; [exact Hwf|]. split.
  - by apply live_entries_size.
  - by apply live_entries_wellformed.
Qed.

End OneLiveWrapper.

(** ** C2, C3, C5, C9: the provider registry *)

Section Registry.
Context `{H : Host}.
Import ExtHostWebviewViews.

Implicit Types (s : ExtHostWebviewViews.t).

(** C2. [registerWebviewViewProvider] throws its "already registered"
    error exactly when [_viewProviders] has the view type; it throws
    nothing else; when it throws, the state is unchanged and nothing is
    sent; otherwise the provider is entered under the view type and the
    registration is forwarded.  In either case no entry that was in the map
    is replaced, so a view type never has a second provider. *)
Theorem register_throws_iff_registered (extension : IExtensionDescription)
    (viewType : string) (provider : WebviewViewProvider)
    (webviewOptions : option WebviewOptions) s :
  let o := registerWebviewViewProvider extension viewType provider webviewOptions s in
  (result o = Throw ("View provider for '" +:+ viewType +:+ "' already registered")
     ↔ is_Some (_viewProviders s !! viewType))
  ∧ ((∃ msg, result o = Throw msg) ↔ is_Some (_viewProviders s !! viewType))
  ∧ (is_Some (_viewProviders s !! viewType) → final o = s ∧ trace o = [])
  ∧ (_viewProviders s !! viewType = None →
       result o = Ok {| captured_viewType := viewType |}
       ∧ final o =
           with_viewProviders
             (<[viewType := {| provider := provider; extension := extension |}]>
                (_viewProviders s)) s
       ∧ trace o = [Rpc_registerWebviewViewProvider viewType webviewOptions])
  ∧ (∀ viewType' entry, _viewProviders s !! viewType' = Some entry →
       _viewProviders (final o) !! viewType' = Some entry).
Proof.
  intros o. subst o.
  destruct (_viewProviders s !! viewType) as [e|] eqn:He.
  - rewrite register_taken by (rewrite He; eauto). simpl.
    repeat split; eauto; try done.
  - rewrite register_fresh by done. simpl.
    split; [split; [done | by intros [? ?]]|].
    split; [split; [by intros [? ?] | by intros [? ?]]|].
    split; [by intros [? ?]|]. split; [done|].
    intros viewType' entry He'. rewrite lookup_insert_ne; [done|].
    intros ->. congruence.
Qed.


(** C9. A call of [$resolveWebviewView] that does not throw calls the
    registered provider's [resolveWebviewView] exactly once, on the new
    wrapper, with the [state] and the very [cancellation] token it was
    given; the token type is arbitrary, so the code cannot alter it. *)
Theorem resolve_passes_cancellation (webviewHandle : WebviewPanelHandle)
    (viewType : string) (state : ViewState) (cancellation : CancellationToken) s :
  let o := resolveWebviewView webviewHandle viewType state cancellation s in
  result o = Ok tt →
  ∃ entry,
    _viewProviders s !! viewType = Some entry
    ∧ trace o =
        [CreateNewWebview webviewHandle (extension entry);
         ResolveWebviewView (provider entry) (length (heap s)) state cancellation]
    ∧ _webviewViews (final o) !! webviewHandle = Some (length (heap s))
    ∧ ∀ provider' view' state' cancellation',
        ResolveWebviewView provider' view' state' cancellation' ∈ trace o →
        provider' = provider entry ∧ cancellation' = cancellation.
Proof.
  intros o Hok. subst o.
  destruct (_viewProviders s !! viewType) as [e|] eqn:He.
  - exists e. rewrite (resolve_registered _ _ _ _ _ _ He) in *.
    cbn [result final trace _webviewViews].
    split; [done|]. split; [done|]. split; [apply lookup_insert_eq|].
    intros p' v' st' c' Hin.
    apply elem_of_cons in Hin as [Hin|Hin]; [discriminate|].
    apply list_elem_of_singleton in Hin. by injection Hin as -> -> -> ->.
  - rewrite resolve_unregistered in Hok by done. discriminate.
Qed.

(** Disposing a registration, in any state, leaves the view type free. *)
Lemma Disposable_dispose_frees (d : Disposable) s :
  Disposable_dispose d s =
    mkOutcome (Ok tt)
      (with_viewProviders (delete (captured_viewType d) (_viewProviders s)) s)
      [Rpc_unregisterWebviewViewProvider (captured_viewType d)].
Proof. reflexivity. Qed.

(** C5. If [registerWebviewViewProvider] returns a Disposable, then
    disposing it, at once or after any further operations, does not throw,
    removes the entry of the view type from [_viewProviders], forwards
    exactly one [$unregisterWebviewViewProvider] for it, and a new
    [registerWebviewViewProvider] for the same view type then succeeds.
    Disposed at once, it restores the state before the registration. *)
Theorem register_dispose_roundtrip (extension : IExtensionDescription)
    (viewType : string) (provider : WebviewViewProvider)
    (webviewOptions : option WebviewOptions)
    (extension' : IExtensionDescription) (provider' : WebviewViewProvider)
    (webviewOptions' : option WebviewOptions)
    (ops : list Op) (d : Disposable) s :
  let o1 := registerWebviewViewProvider extension viewType provider webviewOptions s in
  result o1 = Ok d →
  let o2 := Disposable_dispose d (state_after ops (final o1)) in
  let o3 :=
    registerWebviewViewProvider extension' viewType provider' webviewOptions'
      (final o2) in
  result o2 = Ok tt
  ∧ _viewProviders (final o2) !! viewType = None
  ∧ trace o2 = [Rpc_unregisterWebviewViewProvider viewType]
  ∧ (ops = [] → final o2 = s)
  ∧ result o3 = Ok {| captured_viewType := viewType |}
  ∧ _viewProviders (final o3) !! viewType
      = Some {| provider := provider'; extension := extension' |}.
Proof.
  intros o1 Hok o2 o3. subst o1 o2 o3.
  destruct (_viewProviders s !! viewType) as [e|] eqn:He.
  { rewrite register_taken in Hok by (rewrite He; eauto). discriminate. }
  rewrite register_fresh in * by done. simpl in Hok.
  injection Hok as <-. rewrite Disposable_dispose_frees.
  cbn [result final trace captured_viewType].
  split; [done|]. split; [apply lookup_delete_eq|]. split; [done|]. split.
  - intros ->. unfold state_after. simpl.
    rewrite delete_insert_eq, delete_id by done. by destruct s.
  - rewrite register_fresh by (simpl; apply lookup_delete_eq). simpl.
    split; [done | apply lookup_insert_eq].
Qed.

End Registry.

(** ** Disposal is permanent *)

Section Permanence.
Context `{H : Host}.
Import ExtHostWebviewViews.

Implicit Types (s : ExtHostWebviewViews.t) (r : Ref).

Lemma step_extends op s : extends (heap s) (heap (final (step op s))).
Proof.
  destruct op; cbn [step].
  - rewrite void_final.
    destruct (_viewProviders s !! viewType) eqn:He.
    + rewrite register_taken by done. apply extends_refl.
    + rewrite register_fresh by done. apply extends_refl.
  - apply extends_refl.
  - destruct (_viewProviders s !! viewType) as [entry|] eqn:He.
    + rewrite (resolve_registered _ _ _ _ _ _ He). apply extends_app.
    + rewrite resolve_unregistered by done. apply extends_refl.
  - destruct (_webviewViews s !! webviewHandle) as [r|] eqn:Hr.
    + rewrite (visibility_known _ _ _ _ Hr).
      apply call_extends; auto with webview.
    + rewrite visibility_unknown by done. apply extends_refl.
  - destruct (_webviewViews s !! webviewHandle) as [r|] eqn:Hr.
    + rewrite (disposeWebviewView_known _ _ _ Hr).
      apply (call_extends r _ (with_webviewViews _ s)); auto with webview.
    + rewrite disposeWebviewView_unknown by done. apply extends_refl.
  - apply call_extends; auto with webview.
  - apply call_extends; auto with webview.
Qed.

Lemma run_extends ops s : extends (heap s) (heap (state_after ops s)).
Proof.
  revert s. induction ops as [|op ops IH]; intros s; [apply extends_refl|].
  rewrite state_after_cons.
  eapply extends_trans; [apply step_extends | apply IH].
Qed.

Lemma disposed_at_run ops s r : disposed_at s r → disposed_at (state_after ops s) r.
Proof.
  intros (v & Hv & Hd).
  destruct (run_extends ops s r v Hv) as (v' & Hv' & _ & Hd').
  exists v'. auto.
Qed.

Lemma disposed_at_call_dispose s r v :
  heap s !! r = Some v →
  disposed_at (final (call r (ExtHostWebviewView.dispose r) s)) r.
Proof.
  intros Hv. rewrite (call_Some _ _ _ _ Hv). simpl.
  exists (final (ExtHostWebviewView.dispose r v)). split.
  - apply list_lookup_insert_eq. by eapply lookup_lt_Some.
  - apply dispose_marks.
Qed.

Lemma disposed_at_title s r :
  disposed_at s r →
  call r ExtHostWebviewView.title s = mkOutcome (Throw "Webview is disposed") s [].
Proof.
  intros (v & Hv & Hd).
  rewrite (call_unchanged _ _ _ _ Hv); by rewrite title_disposed.
Qed.

Lemma disposed_at_set_title s r value :
  disposed_at s r →
  call r (ExtHostWebviewView.set_title value) s =
    mkOutcome (Throw "Webview is disposed") s [].
Proof.
  intros (v & Hv & Hd).
  rewrite (call_unchanged _ _ _ _ Hv); by rewrite set_title_disposed.
Qed.

Lemma disposed_at_dispose s r :
  disposed_at s r →
  call r (ExtHostWebviewView.dispose r) s = mkOutcome (Ok tt) s [].
Proof.
  intros (v & Hv & Hd).
  rewrite (call_unchanged _ _ _ _ Hv); by rewrite dispose_disposed.
Qed.

End Permanence.

(** ** C4, C6, C7, C8, C10: one view *)

Section ViewClaims.
Context `{H : Host}.
Import ExtHostWebviewViews.

Implicit Types (s : ExtHostWebviewViews.t) (r : Ref)
  (v : ExtHostWebviewView.t).

Lemma times_noop {S} n (m : M S unit) (x : S) :
  m x = mkOutcome (Ok tt) x [] → times n m x = mkOutcome (Ok tt) x [].
Proof.
  intros Hm. induction n as [|n IH]; [reflexivity|].
  cbn [times]. rewrite (bind_Ok _ _ _ _ _ _ Hm). by rewrite IH.
Qed.

(** C4. Once [dispose] has been called on a view, by the extension or
    through [$disposeWebviewView], and whatever operations follow, reading
    [title] and assigning [title] both throw "Webview is disposed"; the
    assignment leaves the whole state as it was and sends nothing. *)
Theorem disposed_title_throws (r : Ref) v (webviewHandle : WebviewPanelHandle)
    (value : option string) (ops : list Op) s :
  heap s !! r = Some v →
  (let s' := state_after (Op_view_dispose r :: ops) s in
   call r ExtHostWebviewView.title s'
     = mkOutcome (Throw "Webview is disposed") s' []
   ∧ call r (ExtHostWebviewView.set_title value) s'
     = mkOutcome (Throw "Webview is disposed") s' [])
  ∧ (_webviewViews s !! webviewHandle = Some r →
     let s' := state_after (Op_disposeWebviewView webviewHandle :: ops) s in
     call r ExtHostWebviewView.title s'
       = mkOutcome (Throw "Webview is disposed") s' []
     ∧ call r (ExtHostWebviewView.set_title value) s'
       = mkOutcome (Throw "Webview is disposed") s' []).
Proof.
  intros Hv. split.
  - intros s'. subst s'. rewrite state_after_cons. cbn [step].
    assert (disposed_at
              (state_after ops (final (call r (ExtHostWebviewView.dispose r) s))) r)
      as Hd by (eapply disposed_at_run, disposed_at_call_dispose; done).
    split; [by apply disposed_at_title | by apply disposed_at_set_title].
  - intros Hr s'. subst s'. rewrite state_after_cons. cbn [step].
    rewrite (disposeWebviewView_known _ _ _ Hr).
    assert (disposed_at
              (state_after ops
                 (final (call r (ExtHostWebviewView.dispose r)
                    (with_webviewViews (delete webviewHandle (_webviewViews s)) s)))) r)
      as Hd by (eapply disposed_at_run, disposed_at_call_dispose; done).
    split; [by apply disposed_at_title | by apply disposed_at_set_title].
Qed.

(** C6. The first [dispose] of a view sets [#isDisposed], changes no
    other field, and fires [onDidDispose] once (followed by the base
    class's dispose).  Every later [dispose] of the same view, directly
    after or after any other operations, returns without changing the
    state and without firing: any number of calls fires once in all. *)
Theorem dispose_idempotent (r : Ref) v (n : nat) (ops : list Op) s :
  ExtHostWebviewView._isDisposed v = false →
  ExtHostWebviewView.dispose r v
    = mkOutcome (Ok tt) (ExtHostWebviewView.with_isDisposed true v)
        [Fire r onDidDispose; SuperDispose r]
  ∧ ExtHostWebviewView.dispose r (ExtHostWebviewView.with_isDisposed true v)
    = mkOutcome (Ok tt) (ExtHostWebviewView.with_isDisposed true v) []
  ∧ times (S n) (ExtHostWebviewView.dispose r) v
    = mkOutcome (Ok tt) (ExtHostWebviewView.with_isDisposed true v)
        [Fire r onDidDispose; SuperDispose r]
  ∧ (heap s !! r = Some v →
     let s' := state_after (Op_view_dispose r :: ops) s in
     call r (ExtHostWebviewView.dispose r) s' = mkOutcome (Ok tt) s' []).
Proof.
  intros Hlive.
  assert (ExtHostWebviewView.dispose r (ExtHostWebviewView.with_isDisposed true v)
    = mkOutcome (Ok tt) (ExtHostWebviewView.with_isDisposed true v) [])
    as Hagain by (by apply dispose_disposed).
  split; [by apply dispose_live|]. split; [exact Hagain|]. split.
  - cbn [times]. rewrite (bind_Ok _ _ _ _ _ _ (dispose_live r v Hlive)).
    by rewrite (times_noop n _ _ Hagain).
  - intros Hv s'. subst s'. rewrite state_after_cons. cbn [step].
    apply disposed_at_dispose.
    eapply disposed_at_run, disposed_at_call_dispose; done.
Qed.

(** C7. For a handle that is in [_webviewViews],
    [$onDidChangeWebviewViewVisibility] does not throw; it fires
    [onDidChangeVisibility] of that view (once) exactly when the new value
    differs from the view's [#isVisible]; afterwards [visible] returns the
    new value; when the value is the same nothing is fired and the state is
    unchanged, and when it differs only [#isVisible] of that view
    changes. *)
Theorem visibility_relay (webviewHandle : WebviewPanelHandle) (visible : bool)
    (r : Ref) v s :
  _webviewViews s !! webviewHandle = Some r →
  heap s !! r = Some v →
  let o := onDidChangeWebviewViewVisibility webviewHandle visible s in
  result o = Ok tt
  ∧ (Fire r onDidChangeVisibility ∈ trace o
       ↔ visible ≠ ExtHostWebviewView._isVisible v)
  ∧ trace o =
      (if decide (visible = ExtHostWebviewView._isVisible v) then []
       else [Fire r onDidChangeVisibility])
  ∧ result (call r ExtHostWebviewView.visible (final o)) = Ok visible
  ∧ (visible = ExtHostWebviewView._isVisible v → final o = s)
  ∧ (visible ≠ ExtHostWebviewView._isVisible v →
     final o =
       with_heap (<[r := ExtHostWebviewView.with_isVisible visible v]> (heap s)) s).
Proof.
  intros Hr Hv o. subst o. rewrite (visibility_known _ _ _ _ Hr).
  assert (r < length (heap s)) as Hlt by (by eapply lookup_lt_Some).
  destruct (decide (visible = ExtHostWebviewView._isVisible v)) as [Hb|Hb].
  - rewrite (call_unchanged _ _ _ _ Hv); rewrite setVisible_same by done;
      [|done].
    cbn [result final trace].
    split; [done|]. split; [split; [by intros ?%elem_of_nil | done]|].
    split; [done|]. split; [|done].
    rewrite (call_Some _ _ _ _ Hv). simpl. by rewrite Hb.
  - rewrite (call_Some _ _ _ _ Hv), setVisible_other by done.
    cbn [result final trace].
    split; [done|]. split; [split; [done | intros _; apply list_elem_of_here]|].
    split; [done|]. split; [|done].
    rewrite (call_Some r ExtHostWebviewView.visible _
               (ExtHostWebviewView.with_isVisible visible v)); [done|].
    simpl. by apply list_lookup_insert_eq.
Qed.

(** C8. On a view that is not disposed, assigning [title] does not
    throw.  If the value equals the stored title, the view is unchanged and
    nothing is sent; otherwise the stored title becomes that value and one
    [$setWebviewViewTitle] with the view's handle and that value is sent.
    In both cases every field but [#title] keeps its value, and in the
    adapter only that one object of the heap can differ. *)
Theorem set_title_frame (value : option string) (r : Ref) v s :
  ExtHostWebviewView._isDisposed v = false →
  let o := ExtHostWebviewView.set_title value v in
  result o = Ok tt
  ∧ (value = ExtHostWebviewView._title v → final o = v ∧ trace o = [])
  ∧ (value ≠ ExtHostWebviewView._title v →
     final o = ExtHostWebviewView.with_title value v
     ∧ trace o =
         [Rpc_setWebviewViewTitle (ExtHostWebviewView._handle v) value])
  ∧ ExtHostWebviewView._title (final o) = value
  ∧ ExtHostWebviewView._handle (final o) = ExtHostWebviewView._handle v
  ∧ ExtHostWebviewView._viewType (final o) = ExtHostWebviewView._viewType v
  ∧ ExtHostWebviewView._webview (final o) = ExtHostWebviewView._webview v
  ∧ ExtHostWebviewView._isDisposed (final o) = ExtHostWebviewView._isDisposed v
  ∧ ExtHostWebviewView._isVisible (final o) = ExtHostWebviewView._isVisible v
  ∧ (heap s !! r = Some v →
     let o' := call r (ExtHostWebviewView.set_title value) s in
     result o' = Ok tt
     ∧ trace o' = trace o
     ∧ _viewProviders (final o') = _viewProviders s
     ∧ _webviewViews (final o') = _webviewViews s
     ∧ heap (final o') !! r = Some (final o)
     ∧ ∀ r', r' ≠ r → heap (final o') !! r' = heap s !! r').
Proof.
  intros Hlive o.
  assert (result o = Ok tt
          ∧ final o = ExtHostWebviewView.with_title value v
          ∧ ((value = ExtHostWebviewView._title v ∧ final o = v ∧ trace o = [])
             ∨ (value ≠ ExtHostWebviewView._title v
                ∧ trace o =
                    [Rpc_setWebviewViewTitle (ExtHostWebviewView._handle v) value])))
    as (Hres & Hfin & Hcases).
  { subst o. destruct (decide (ExtHostWebviewView._title v = value)) as [Ht|Ht].
    - rewrite set_title_same by done. cbn [result final trace].
      split; [done|]. split; [subst value; by destruct v|]. left. done.
    - rewrite set_title_other by done. cbn [result final trace].
      split; [done|]. split; [done|]. right. split; [congruence | done]. }
  split; [done|].
  split; [intros Heq; destruct Hcases as [(_ & ? & ?)|(Hne & _)]; done|].
  split; [intros Hne; destruct Hcases as [(Heq & _)|(_ & ?)]; done|].
  rewrite Hfin. cbn.
  do 6 (split; [done|]).
  intros Hv. rewrite (call_Some _ _ _ _ Hv). fold o.
  cbn [result final trace with_heap _viewProviders _webviewViews heap].
  rewrite Hfin.
  split; [done|]. split; [done|]. split; [done|]. split; [done|]. split.
  - apply list_lookup_insert_eq. by eapply lookup_lt_Some.
  - intros r' Hne. by apply list_lookup_insert_ne.
Qed.

End ViewClaims.

(** ** C10: the getters without a guard *)

Section Getters.
Context `{H : Host}.
Import ExtHostWebviewViews.

Implicit Types (s : ExtHostWebviewViews.t) (r : Ref)
  (v : ExtHostWebviewView.t).

Lemma call_lookup {A} r' (m : M ExtHostWebviewView.t A) s r v :
  heap s !! r = Some v →
  heap (final (call r' m s)) !! r
    = Some (if decide (r' = r) then final (m v) else v).
Proof.
  intros Hv. case_decide as Hr.
  - subst r'. rewrite (call_Some _ _ _ _ Hv). simpl.
    apply list_lookup_insert_eq. by eapply lookup_lt_Some.
  - destruct (heap s !! r') as [w|] eqn:Hw.
    + rewrite (call_Some _ _ _ _ Hw). simpl. by rewrite list_lookup_insert_ne.
    + by rewrite call_None.
Qed.

Lemma visible_eq v :
  ExtHostWebviewView.visible v
    = mkOutcome (Ok (ExtHostWebviewView._isVisible v)) v [].
Proof. reflexivity. Qed.

Lemma dispose_isVisible r v :
  ExtHostWebviewView._isVisible (final (ExtHostWebviewView.dispose r v))
    = ExtHostWebviewView._isVisible v.
Proof.
  destruct (ExtHostWebviewView._isDisposed v) eqn:Hd.
  - by rewrite dispose_disposed.
  - by rewrite dispose_live.
Qed.

Lemma set_title_isVisible value v :
  ExtHostWebviewView._isVisible (final (ExtHostWebviewView.set_title value v))
    = ExtHostWebviewView._isVisible v.
Proof.
  destruct (ExtHostWebviewView._isDisposed v) eqn:Hd.
  - by rewrite set_title_disposed.
  - destruct (decide (ExtHostWebviewView._title v = value)).
    + by rewrite set_title_same.
    + by rewrite set_title_other.
Qed.

(** What one operation can do to the visibility of an existing view:
    nothing, unless it is a visibility change relayed to that very view,
    and then the view takes the relayed value. *)
Lemma step_isVisible op s r v :
  heap s !! r = Some v →
  ∃ v', heap (final (step op s)) !! r = Some v'
    ∧ (ExtHostWebviewView._isVisible v' = ExtHostWebviewView._isVisible v
       ∨ ∃ webviewHandle,
           op = Op_onDidChangeWebviewViewVisibility webviewHandle
                  (ExtHostWebviewView._isVisible v')
           ∧ _webviewViews s !! webviewHandle = Some r).
Proof.
  intros Hv. destruct op; cbn [step].
  - rewrite void_final. exists v. split; [|by left].
    destruct (_viewProviders s !! viewType) eqn:He.
    + by rewrite register_taken.
    + by rewrite register_fresh.
  - exists v. split; [done | by left].
  - exists v. split; [|by left].
    destruct (_viewProviders s !! viewType) as [entry|] eqn:He.
    + rewrite (resolve_registered _ _ _ _ _ _ He). simpl.
      rewrite lookup_app_l; [done|]. by eapply lookup_lt_Some.
    + by rewrite resolve_unregistered.
  - destruct (_webviewViews s !! webviewHandle) as [r'|] eqn:Hr.
    + rewrite (visibility_known _ _ _ _ Hr).
      eexists. split; [by apply call_lookup|].
      case_decide as Heq; [|by left]. subst r'.
      right. exists webviewHandle. by rewrite setVisible_final.
    + rewrite visibility_unknown by done. exists v. split; [done | by left].
  - destruct (_webviewViews s !! webviewHandle) as [r'|] eqn:Hr.
    + rewrite (disposeWebviewView_known _ _ _ Hr).
      eexists. split; [by apply (call_lookup _ _ (with_webviewViews _ s))|].
      left. case_decide; [apply dispose_isVisible | done].
    + rewrite disposeWebviewView_unknown by done.
      exists v. split; [done | by left].
  - eexists. split; [by apply call_lookup|].
    left. case_decide; [apply dispose_isVisible | done].
  - eexists. split; [by apply call_lookup|].
    left. case_decide; [apply set_title_isVisible | done].
Qed.

(** C10, as the code has it.  [visible], [viewType] and [webview] return
    the stored field and never throw, disposed or not; [title] and its
    setter throw exactly on a disposed view.  [dispose] does not touch
    [#isVisible], so right after disposal [visible] returns the value from
    before; [_setVisible] has no disposal guard, so a value relayed after
    disposal is stored and returned all the same.  Over any operation,
    [visible] of an existing view changes only by a visibility change
    relayed to that view, and then to the relayed value. *)
Theorem getters_never_throw (r : Ref) v (b : bool) (value : option string)
    (op : Op) s :
  ExtHostWebviewView.visible v
    = mkOutcome (Ok (ExtHostWebviewView._isVisible v)) v []
  ∧ ExtHostWebviewView.viewType v
    = mkOutcome (Ok (ExtHostWebviewView._viewType v)) v []
  ∧ ExtHostWebviewView.webview v
    = mkOutcome (Ok (ExtHostWebviewView._webview v)) v []
  ∧ ((∃ msg, result (ExtHostWebviewView.title v) = Throw msg)
       ↔ ExtHostWebviewView._isDisposed v = true)
  ∧ ((∃ msg, result (ExtHostWebviewView.set_title value v) = Throw msg)
       ↔ ExtHostWebviewView._isDisposed v = true)
  ∧ result (ExtHostWebviewView.visible (final (ExtHostWebviewView.dispose r v)))
    = Ok (ExtHostWebviewView._isVisible v)
  ∧ result (ExtHostWebviewView.visible
              (final (ExtHostWebviewView._setVisible r b v)))
    = Ok b
  ∧ (heap s !! r = Some v →
     ∃ v', heap (final (step op s)) !! r = Some v'
       ∧ call r ExtHostWebviewView.visible (final (step op s))
         = mkOutcome (Ok (ExtHostWebviewView._isVisible v')) (final (step op s)) []
       ∧ (ExtHostWebviewView._isVisible v' = ExtHostWebviewView._isVisible v
          ∨ ∃ webviewHandle,
              op = Op_onDidChangeWebviewViewVisibility webviewHandle
                     (ExtHostWebviewView._isVisible v')
              ∧ _webviewViews s !! webviewHandle = Some r)).
Proof.
  split; [reflexivity|]. split; [reflexivity|]. split; [reflexivity|].
  split; [|split; [|split; [|split]]].
  - destruct (ExtHostWebviewView._isDisposed v) eqn:Hd.
    + rewrite title_disposed by done. simpl. split; eauto.
    + rewrite title_live by done. simpl. split; [by intros [? ?] | done].
  - destruct (ExtHostWebviewView._isDisposed v) eqn:Hd.
    + rewrite set_title_disposed by done. simpl. split; eauto.
    + destruct (decide (ExtHostWebviewView._title v = value)).
      * rewrite set_title_same by done. simpl. split; [by intros [? ?] | done].
      * rewrite set_title_other by done. simpl. split; [by intros [? ?] | done].
  - rewrite visible_eq. cbn [result]. by rewrite dispose_isVisible.
  - rewrite visible_eq. cbn [result]. by rewrite setVisible_final.
  - intros Hv. destruct (step_isVisible op s r v Hv) as (v' & Hv' & Hcases).
    exists v'. split; [done|]. split; [|done].
    by rewrite (call_unchanged _ _ _ _ Hv').
Qed.

End Getters.

(** ** Handles: looking up, disposing, and what a throw leaves behind *)

Section Handles.
Context `{H : Host}.
Import ExtHostWebviewViews.

Implicit Types (s : ExtHostWebviewViews.t) (r : Ref)
  (v : ExtHostWebviewView.t).

Lemma setVisible_result r b v :
  result (ExtHostWebviewView._setVisible r b v) = Ok tt.
Proof.
  destruct (decide (b = ExtHostWebviewView._isVisible v)).
  - by rewrite setVisible_same.
  - by rewrite setVisible_other.
Qed.

Lemma dispose_result r v : result (ExtHostWebviewView.dispose r v) = Ok tt.
Proof.
  destruct (ExtHostWebviewView._isDisposed v) eqn:Hd.
  - by rewrite dispose_disposed.
  - by rewrite dispose_live.
Qed.

Lemma with_isDisposed_id v :
  ExtHostWebviewView._isDisposed v = true →
  ExtHostWebviewView.with_isDisposed true v = v.
Proof. destruct v. simpl. by intros ->. Qed.

Lemma dispose_final r v :
  final (ExtHostWebviewView.dispose r v)
    = ExtHostWebviewView.with_isDisposed true v.
Proof.
  destruct (ExtHostWebviewView._isDisposed v) eqn:Hd.
  - rewrite dispose_disposed by done. simpl. by rewrite with_isDisposed_id.
  - by rewrite dispose_live.
Qed.

Lemma dispose_trace r v :
  trace (ExtHostWebviewView.dispose r v)
    = if ExtHostWebviewView._isDisposed v then []
      else [Fire r onDidDispose; SuperDispose r].
Proof.
  destruct (ExtHostWebviewView._isDisposed v) eqn:Hd.
  - by rewrite dispose_disposed.
  - by rewrite dispose_live.
Qed.

Lemma void_Throw {S A} (m : M S A) (x x' : S) msg tr :
  m x = mkOutcome (Throw msg) x' tr → void m x = mkOutcome (Throw msg) x' tr.
Proof. intros Hm. unfold void, mbind, M_bind. by rewrite Hm. Qed.

Lemma void_Ok {S A} (m : M S A) (x x' : S) a tr :
  m x = mkOutcome (Ok a) x' tr → void m x = mkOutcome (Ok tt) x' tr.
Proof.
  intros Hm. unfold void, mbind, M_bind. rewrite Hm. simpl.
  by rewrite app_nil_r.
Qed.

(** X1. [$disposeWebviewView] for a handle of the table does not throw.
    It removes that one entry, sets [#isDisposed] of the wrapper and
    touches nothing else; it fires [onDidDispose] (then the base class's
    dispose) unless the extension had disposed the wrapper already, in
    which case nothing is emitted. *)
Theorem disposeWebviewView_removes_and_disposes
    (webviewHandle : WebviewPanelHandle) r v s :
  _webviewViews s !! webviewHandle = Some r →
  heap s !! r = Some v →
  let o := disposeWebviewView webviewHandle s in
  result o = Ok tt
  ∧ _webviewViews (final o) = delete webviewHandle (_webviewViews s)
  ∧ _viewProviders (final o) = _viewProviders s
  ∧ heap (final o)
    = <[r := ExtHostWebviewView.with_isDisposed true v]> (heap s)
  ∧ trace o
    = (if ExtHostWebviewView._isDisposed v then []
       else [Fire r onDidDispose; SuperDispose r]).
Proof.
  intros Hr Hv o. subst o. rewrite (disposeWebviewView_known _ _ _ Hr).
  rewrite (call_Some r _ (with_webviewViews _ s) v) by done.
  cbn [result final trace with_heap with_webviewViews
       _webviewViews _viewProviders heap].
  rewrite dispose_result, dispose_final, dispose_trace. done.
Qed.

(** X2. In every state the object can reach, [$disposeWebviewView] and
    [$onDidChangeWebviewViewVisibility] throw exactly when the handle is
    not in [_webviewViews]; the error is then "No webview found", the
    state is unchanged and nothing is emitted. *)
Theorem unknown_handle_throws (ops : list Op)
    (webviewHandle : WebviewPanelHandle) (visible : bool) :
  let s := state_after ops constructor in
  ((∃ msg, result (disposeWebviewView webviewHandle s) = Throw msg)
     ↔ _webviewViews s !! webviewHandle = None)
  ∧ ((∃ msg, result (onDidChangeWebviewViewVisibility webviewHandle visible s)
               = Throw msg)
     ↔ _webviewViews s !! webviewHandle = None)
  ∧ (_webviewViews s !! webviewHandle = None →
     disposeWebviewView webviewHandle s
       = mkOutcome (Throw "No webview found") s []
     ∧ onDidChangeWebviewViewVisibility webviewHandle visible s
       = mkOutcome (Throw "No webview found") s []).
Proof.
  intros s. pose proof (reachable_wellformed ops) as Hwf. fold s in Hwf.
  destruct (_webviewViews s !! webviewHandle) as [r|] eqn:Hr.
  - destruct (Hwf _ _ Hr) as (v & Hv & _).
    rewrite (disposeWebviewView_known _ _ _ Hr), (visibility_known _ _ _ _ Hr).
    rewrite (call_Some r _ (with_webviewViews _ s) v) by done.
    rewrite (call_Some r _ s v) by done.
    cbn [result]. rewrite dispose_result, setVisible_result.
    split; [split; [by intros [? ?] | done]|].
    split; [split; [by intros [? ?] | done]|]. done.
  - rewrite disposeWebviewView_unknown, visibility_unknown by done.
    cbn [result]. repeat split; eauto.
Qed.

(** An operation other than resolving [handle] does not enter it in the
    table. *)
Lemma step_keeps_unknown (handle : WebviewPanelHandle) op s :
  resolves handle op = false →
  _webviewViews s !! handle = None →
  _webviewViews (final (step op s)) !! handle = None.
Proof.
  intros Hop Hn. destruct op; cbn [step].
  - rewrite void_final.
    destruct (_viewProviders s !! viewType) eqn:He.
    + by rewrite register_taken.
    + by rewrite register_fresh.
  - done.
  - simpl in Hop. apply bool_decide_eq_false in Hop.
    destruct (_viewProviders s !! viewType) as [entry|] eqn:He.
    + rewrite (resolve_registered _ _ _ _ _ _ He). simpl.
      by rewrite lookup_insert_ne.
    + by rewrite resolve_unregistered.
  - destruct (_webviewViews s !! webviewHandle) as [r|] eqn:Hr.
    + rewrite (visibility_known _ _ _ _ Hr). by rewrite call_webviewViews.
    + by rewrite visibility_unknown.
  - destruct (_webviewViews s !! webviewHandle) as [r|] eqn:Hr.
    + rewrite (disposeWebviewView_known _ _ _ Hr).
      rewrite call_webviewViews. simpl. rewrite lookup_delete.
      by case_decide.
    + by rewrite disposeWebviewView_unknown.
  - by rewrite call_webviewViews.
  - by rewrite call_webviewViews.
Qed.

Lemma run_keeps_unknown (handle : WebviewPanelHandle) ops s :
  forallb (fun op => negb (resolves handle op)) ops = true →
  _webviewViews s !! handle = None →
  _webviewViews (state_after ops s) !! handle = None.
Proof.
  revert s. induction ops as [|op ops IH]; intros s Hops Hn; [done|].
  simpl in Hops. apply andb_true_iff in Hops as [Hop Hops].
  apply negb_true_iff in Hop.
  rewrite state_after_cons. apply IH; [done|].
  by apply step_keeps_unknown.
Qed.

(** X3. After [$disposeWebviewView] for a handle, and as long as that
    handle is not resolved again, the handle stays out of the table:
    a second [$disposeWebviewView] and any visibility change for it throw
    "No webview found" and change nothing. *)
Theorem disposed_handle_stays_unknown (webviewHandle : WebviewPanelHandle)
    (visible : bool) (ops : list Op) r s :
  _webviewViews s !! webviewHandle = Some r →
  forallb (fun op => negb (resolves webviewHandle op)) ops = true →
  let s' := state_after (Op_disposeWebviewView webviewHandle :: ops) s in
  _webviewViews s' !! webviewHandle = None
  ∧ disposeWebviewView webviewHandle s'
    = mkOutcome (Throw "No webview found") s' []
  ∧ onDidChangeWebviewViewVisibility webviewHandle visible s'
    = mkOutcome (Throw "No webview found") s' [].
Proof.
  intros Hr Hops s'.
  assert (_webviewViews s' !! webviewHandle = None) as Hn.
  { subst s'. rewrite state_after_cons. apply run_keeps_unknown; [done|].
    cbn [step]. rewrite (disposeWebviewView_known _ _ _ Hr).
    rewrite call_webviewViews. simpl. apply lookup_delete_eq. }
  split; [done|].
  by rewrite disposeWebviewView_unknown, visibility_unknown.
Qed.

(** X4. Exceptions are all-or-nothing, but for one: in every state the
    object can reach, an operation that throws has changed no field of
    the adapter or of any view and has emitted nothing, unless it is a
    [$resolveWebviewView] for a registered view type whose provider
    failed.  Then the error is the provider's, and nothing is rolled
    back: the new wrapper exists and is filed under the handle. *)
Theorem throw_changes_nothing_unless_provider_failed (ops : list Op) (op : Op)
    (msg : string) :
  let s := state_after ops constructor in
  result (step op s) = Throw msg →
  (final (step op s) = s ∧ trace (step op s) = [])
  ∨ (∃ webviewHandle viewType state cancellation entry,
       op = Op_resolveWebviewView webviewHandle viewType state cancellation
       ∧ _viewProviders s !! viewType = Some entry
       ∧ provider_resolveWebviewView (provider entry) (length (heap s))
           state cancellation = Throw msg
       ∧ _webviewViews (final (step op s)) !! webviewHandle
         = Some (length (heap s))
       ∧ heap (final (step op s))
         = heap s ++
             [ExtHostWebviewView.constructor webviewHandle viewType
                (createNewWebview webviewHandle (extension entry)) true]
       ∧ trace (step op s)
         = [CreateNewWebview webviewHandle (extension entry);
            ResolveWebviewView (provider entry) (length (heap s)) state
              cancellation]).
Proof.
  intros s Hthrow. pose proof (reachable_wellformed ops) as Hwf. fold s in Hwf.
  destruct op; cbn [step] in *.
  - left. destruct (_viewProviders s !! viewType) eqn:He.
    + by rewrite (void_Throw _ _ _ _ _ (register_taken _ _ _ _ _ (mk_is_Some _ _ He))).
    + rewrite (void_Ok _ _ _ _ _ (register_fresh _ _ _ _ _ He)) in Hthrow.
      discriminate.
  - discriminate.
  - destruct (_viewProviders s !! viewType) as [entry|] eqn:He.
    + right. exists webviewHandle, viewType, state, cancellation, entry.
      rewrite (resolve_registered _ _ _ _ _ _ He) in *.
      cbn [result final trace _webviewViews heap] in *.
      split; [done|]. split; [done|]. split; [done|].
      split; [apply lookup_insert_eq | done].
    + left. by rewrite resolve_unregistered.
  - left. destruct (_webviewViews s !! webviewHandle) as [r|] eqn:Hr.
    + destruct (Hwf _ _ Hr) as (v & Hv & _).
      rewrite (visibility_known _ _ _ _ Hr), (call_Some _ _ _ _ Hv) in Hthrow.
      cbn [result] in Hthrow. rewrite setVisible_result in Hthrow.
      discriminate.
    + by rewrite visibility_unknown.
  - left. destruct (_webviewViews s !! webviewHandle) as [r|] eqn:Hr.
    + destruct (Hwf _ _ Hr) as (v & Hv & _).
      rewrite (disposeWebviewView_known _ _ _ Hr) in Hthrow.
      rewrite (call_Some r _ (with_webviewViews _ s) v) in Hthrow by done.
      cbn [result] in Hthrow. rewrite dispose_result in Hthrow.
      discriminate.
    + by rewrite disposeWebviewView_unknown.
  - left. destruct (heap s !! view) as [v|] eqn:Hv.
    + rewrite (call_Some _ _ _ _ Hv) in Hthrow.
      cbn [result] in Hthrow. rewrite dispose_result in Hthrow.
      discriminate.
    + by rewrite call_None.
  - left. destruct (heap s !! view) as [v|] eqn:Hv.
    + destruct (ExtHostWebviewView._isDisposed v) eqn:Hd.
      * rewrite (call_unchanged _ _ _ _ Hv);
          by rewrite set_title_disposed.
      * rewrite (call_Some _ _ _ _ Hv) in Hthrow. cbn [result] in Hthrow.
        destruct (decide (ExtHostWebviewView._title v = value)).
        -- rewrite set_title_same in Hthrow by done. discriminate.
        -- rewrite set_title_other in Hthrow by done. discriminate.
    + by rewrite call_None.
Qed.

End Handles.

(** ** Resolving: the new wrapper, a replaced entry, and who gets which *)

Section Resolving.
Context `{H : Host}.
Import ExtHostWebviewViews.

Implicit Types (s : ExtHostWebviewViews.t) (r : Ref)
  (v : ExtHostWebviewView.t).

(** X5. A [$resolveWebviewView] for a registered view type allocates one
    wrapper under a reference no object had, leaves every existing
    wrapper and the registry alone, and files the wrapper under the
    handle.  The new view is visible and has no title, so assigning
    [undefined] to its title sends nothing; its webview is the one created
    for the handle and the extension that registered the provider. *)
Theorem resolve_creates_fresh_visible_view (webviewHandle : WebviewPanelHandle)
    (viewType : string) (state : ViewState) (cancellation : CancellationToken)
    (entry : Entry) s :
  _viewProviders s !! viewType = Some entry →
  let o := resolveWebviewView webviewHandle viewType state cancellation s in
  let r := length (heap s) in
  let created := createNewWebview webviewHandle (extension entry) in
  heap s !! r = None
  ∧ heap (final o)
    = heap s ++ [ExtHostWebviewView.constructor webviewHandle viewType created true]
  ∧ _webviewViews (final o) = <[webviewHandle := r]> (_webviewViews s)
  ∧ _viewProviders (final o) = _viewProviders s
  ∧ call r ExtHostWebviewView.visible (final o)
    = mkOutcome (Ok true) (final o) []
  ∧ call r ExtHostWebviewView.title (final o)
    = mkOutcome (Ok None) (final o) []
  ∧ call r ExtHostWebviewView.webview (final o)
    = mkOutcome (Ok created) (final o) []
  ∧ call r ExtHostWebviewView.viewType (final o)
    = mkOutcome (Ok viewType) (final o) []
  ∧ call r (ExtHostWebviewView.set_title None) (final o)
    = mkOutcome (Ok tt) (final o) [].
Proof.
  intros He o r created. subst o r created.
  rewrite (resolve_registered _ _ _ _ _ _ He). cbn [final].
  set (v := ExtHostWebviewView.constructor _ _ _ _).
  set (s' := {| _viewProviders := _; _webviewViews := _; heap := _ |}).
  assert (heap s' !! length (heap s) = Some v) as Hv.
  { subst s'. simpl. rewrite lookup_app_r by done.
    by rewrite Nat.sub_diag. }
  split; [by apply lookup_ge_None_2|]. split; [done|]. split; [done|].
  split; [done|].
  split; [by rewrite (call_unchanged _ _ _ _ Hv)|].
  split; [by rewrite (call_unchanged _ _ _ _ Hv)|].
  split; [by rewrite (call_unchanged _ _ _ _ Hv)|].
  split; [by rewrite (call_unchanged _ _ _ _ Hv)|].
  by rewrite (call_unchanged _ _ _ _ Hv).
Qed.

Lemma trace_after_cons op (ops : list Op) s :
  trace_after (op :: ops) s
    = trace (step op s) ++ trace_after ops (final (step op s)).
Proof.
  unfold trace_after. simpl. by destruct (run ops (final (step op s))).
Qed.

Lemma resolved_views_app tr1 tr2 :
  resolved_views (tr1 ++ tr2) = resolved_views tr1 ++ resolved_views tr2.
Proof. apply omap_app. Qed.

(** A method call on a view hands no wrapper to a provider and allocates
    nothing. *)
Lemma call_allocates_nothing r (m : M ExtHostWebviewView.t unit) s :
  (∀ v, resolved_views (trace (m v)) = []) →
  resolved_views (trace (call r m s)) = []
  ∧ length (heap (final (call r m s))) = length (heap s).
Proof.
  intros Hm. destruct (heap s !! r) as [v|] eqn:Hv.
  - rewrite (call_Some _ _ _ _ Hv). simpl. by rewrite Hm, length_insert.
  - by rewrite call_None.
Qed.

Lemma dispose_resolves_nothing r v :
  resolved_views (trace (ExtHostWebviewView.dispose r v)) = [].
Proof. rewrite dispose_trace. by destruct (ExtHostWebviewView._isDisposed v). Qed.

Lemma setVisible_resolves_nothing r b v :
  resolved_views (trace (ExtHostWebviewView._setVisible r b v)) = [].
Proof.
  destruct (decide (b = ExtHostWebviewView._isVisible v)).
  - by rewrite setVisible_same.
  - by rewrite setVisible_other.
Qed.

Lemma set_title_resolves_nothing value v :
  resolved_views (trace (ExtHostWebviewView.set_title value v)) = [].
Proof.
  destruct (ExtHostWebviewView._isDisposed v) eqn:Hd.
  - by rewrite set_title_disposed.
  - destruct (decide (ExtHostWebviewView._title v = value)).
    + by rewrite set_title_same.
    + by rewrite set_title_other.
Qed.

(** One operation hands out exactly the references it allocates. *)
Lemma step_resolved_views op s :
  let s' := final (step op s) in
  length (heap s) ≤ length (heap s')
  ∧ resolved_views (trace (step op s))
    = seq (length (heap s)) (length (heap s') - length (heap s)).
Proof.
  assert (∀ (o : Outcome ExtHostWebviewViews.t unit),
            resolved_views (trace o) = [] →
            length (heap (final o)) = length (heap s) →
            length (heap s) ≤ length (heap (final o))
            ∧ resolved_views (trace o)
              = seq (length (heap s))
                  (length (heap (final o)) - length (heap s))) as Hsame.
  { intros o -> ->. by rewrite Nat.sub_diag. }
  destruct op; cbn [step]; cbn zeta.
  - destruct (_viewProviders s !! viewType) eqn:He.
    + by rewrite (void_Throw _ _ _ _ _
                    (register_taken _ _ _ _ _ (mk_is_Some _ _ He))); apply Hsame.
    + by rewrite (void_Ok _ _ _ _ _ (register_fresh _ _ _ _ _ He)); apply Hsame.
  - by apply Hsame.
  - destruct (_viewProviders s !! viewType) as [entry|] eqn:He.
    + rewrite (resolve_registered _ _ _ _ _ _ He). simpl.
      rewrite length_app. simpl. split; [lia|].
      by replace (length (heap s) + 1 - length (heap s)) with 1 by lia.
    + rewrite resolve_unregistered by done. by apply Hsame.
  - destruct (_webviewViews s !! webviewHandle) as [r|] eqn:Hr.
    + rewrite (visibility_known _ _ _ _ Hr).
      by apply Hsame; apply call_allocates_nothing, setVisible_resolves_nothing.
    + rewrite visibility_unknown by done. by apply Hsame.
  - destruct (_webviewViews s !! webviewHandle) as [r|] eqn:Hr.
    + rewrite (disposeWebviewView_known _ _ _ Hr).
      by apply Hsame;
        apply (call_allocates_nothing r _ (with_webviewViews _ s)),
          dispose_resolves_nothing.
    + rewrite disposeWebviewView_unknown by done. by apply Hsame.
  - by apply Hsame; apply call_allocates_nothing, dispose_resolves_nothing.
  - by apply Hsame; apply call_allocates_nothing, set_title_resolves_nothing.
Qed.

Lemma run_resolved_views ops s :
  length (heap s) ≤ length (heap (state_after ops s))
  ∧ resolved_views (trace_after ops s)
    = seq (length (heap s))
        (length (heap (state_after ops s)) - length (heap s)).
Proof.
  revert s. induction ops as [|op ops IH]; intros s.
  - unfold state_after, trace_after. simpl. by rewrite Nat.sub_diag.
  - rewrite state_after_cons, trace_after_cons, resolved_views_app.
    destruct (step_resolved_views op s) as [Hle1 ->].
    destruct (IH (final (step op s))) as [Hle2 ->].
    split; [lia|].
    set (a := length (heap s)) in *.
    set (b := length (heap (final (step op s)))) in *.
    set (c := length (heap (state_after ops (final (step op s))))) in *.
    replace (c - a) with ((b - a) + (c - b)) by lia.
    rewrite seq_app. by replace (a + (b - a)) with b by lia.
Qed.

(** X7. Over any sequence of operations, the wrappers handed to
    providers are exactly the wrappers ever created, each handed out once
    and in the order of creation: no provider call receives a wrapper
    that an earlier call received. *)
Theorem resolved_views_are_fresh (ops : list Op) :
  resolved_views (trace_after ops constructor)
    = seq 0 (length (heap (state_after ops constructor)))
  ∧ NoDup (resolved_views (trace_after ops constructor)).
Proof.
  destruct (run_resolved_views ops constructor) as [_ Heq].
  simpl in Heq. rewrite Nat.sub_0_r in Heq.
  split; [done|]. rewrite Heq. apply NoDup_seq.
Qed.

End Resolving.

(** ** The registry over time *)

Section RegistryOverTime.
Context `{H : Host}.
Import ExtHostWebviewViews.

Implicit Types (s : ExtHostWebviewViews.t) (r : Ref)
  (v : ExtHostWebviewView.t).

Lemma call_keeps_viewProviders {A} r (m : M ExtHostWebviewView.t A) s :
  _viewProviders (final (call r m s)) = _viewProviders s.
Proof. unfold call. by destruct (heap s !! r). Qed.

(** What one operation leaves alone, by the kind of the operation. *)
Lemma step_frame (op : Op) s :
  let s' := final (step op s) in
  if is_registry_op op
  then _webviewViews s' = _webviewViews s ∧ heap s' = heap s
  else _viewProviders s' = _viewProviders s.
Proof.
  destruct op; cbn [step is_registry_op]; cbn zeta.
  - rewrite void_final.
    destruct (_viewProviders s !! viewType) eqn:He.
    + by rewrite register_taken.
    + by rewrite register_fresh.
  - done.
  - destruct (_viewProviders s !! viewType) as [entry|] eqn:He.
    + by rewrite (resolve_registered _ _ _ _ _ _ He).
    + by rewrite resolve_unregistered.
  - destruct (_webviewViews s !! webviewHandle) as [r|] eqn:Hr.
    + by rewrite (visibility_known _ _ _ _ Hr), call_keeps_viewProviders.
    + by rewrite visibility_unknown.
  - destruct (_webviewViews s !! webviewHandle) as [r|] eqn:Hr.
    + by rewrite (disposeWebviewView_known _ _ _ Hr), call_keeps_viewProviders.
    + by rewrite disposeWebviewView_unknown.
  - apply call_keeps_viewProviders.
  - apply call_keeps_viewProviders.
Qed.

(** X8. The registry and the views do not touch each other: registering
    a provider or disposing a registration changes neither
    [_webviewViews] nor any wrapper, and every other operation leaves
    [_viewProviders] as it is. *)
Theorem registry_and_views_are_independent (op : Op) s :
  let s' := final (step op s) in
  if is_registry_op op
  then _webviewViews s' = _webviewViews s ∧ heap s' = heap s
  else _viewProviders s' = _viewProviders s.
Proof. apply step_frame. Qed.

(** Only disposing a registration of the view type removes its entry. *)
Lemma step_keeps_provider (viewType : string) (entry : Entry) op s :
  unregisters viewType op = false →
  _viewProviders s !! viewType = Some entry →
  _viewProviders (final (step op s)) !! viewType = Some entry.
Proof.
  intros Hop He.
  pose proof (step_frame op s) as Hframe.
  destruct op; cbn [is_registry_op] in Hframe; cbn zeta in Hframe;
    try (by rewrite Hframe).
  - cbn [step]. rewrite void_final.
    destruct (_viewProviders s !! viewType0) eqn:He0.
    + by rewrite register_taken.
    + rewrite register_fresh by done. simpl.
      rewrite lookup_insert_ne; [done|]. intros ->. congruence.
  - cbn [step]. simpl in Hop. apply bool_decide_eq_false in Hop.
    simpl. by rewrite lookup_delete_ne.
Qed.

Lemma run_keeps_provider (viewType : string) (entry : Entry) ops s :
  forallb (fun op => negb (unregisters viewType op)) ops = true →
  _viewProviders s !! viewType = Some entry →
  _viewProviders (state_after ops s) !! viewType = Some entry.
Proof.
  revert s. induction ops as [|op ops IH]; intros s Hops He; [done|].
  simpl in Hops. apply andb_true_iff in Hops as [Hop Hops].
  apply negb_true_iff in Hop.
  rewrite state_after_cons. apply IH; [done|].
  by apply step_keeps_provider.
Qed.

(** X9. From a successful registration until a registration of that view
    type is disposed, whatever else happens, the provider stays in
    [_viewProviders] with its extension: another registration of the view
    type throws, and every [$resolveWebviewView] of the type creates the
    webview for that extension and calls that provider. *)
Theorem registration_persists (extension : IExtensionDescription)
    (viewType : string) (provider : WebviewViewProvider)
    (webviewOptions : option WebviewOptions) (d : Disposable)
    (ops : list Op) s :
  let o1 := registerWebviewViewProvider extension viewType provider webviewOptions s in
  result o1 = Ok d →
  forallb (fun op => negb (unregisters viewType op)) ops = true →
  let s' := state_after ops (final o1) in
  _viewProviders s' !! viewType
    = Some {| provider := provider; extension := extension |}
  ∧ (∀ extension' provider' webviewOptions',
       registerWebviewViewProvider extension' viewType provider' webviewOptions' s'
         = mkOutcome
             (Throw ("View provider for '" +:+ viewType +:+ "' already registered"))
             s' [])
  ∧ (∀ webviewHandle state cancellation,
       trace (resolveWebviewView webviewHandle viewType state cancellation s')
         = [CreateNewWebview webviewHandle extension;
            ResolveWebviewView provider (length (heap s')) state cancellation]).
Proof.
  intros o1 Hok Hops s'.
  assert (_viewProviders s' !! viewType
          = Some {| provider := provider; extension := extension |}) as He.
  { subst s' o1. apply run_keeps_provider; [done|].
    destruct (_viewProviders s !! viewType) as [e|] eqn:He.
    - rewrite register_taken in Hok by (rewrite He; eauto). discriminate.
    - rewrite register_fresh by done. simpl. apply lookup_insert_eq. }
  split; [done|]. split.
  - intros. apply register_taken. rewrite He. eauto.
  - intros. by rewrite (resolve_registered _ _ _ _ _ _ He).
Qed.

Lemma registered_on_main_app known tr1 tr2 :
  registered_on_main known (tr1 ++ tr2)
    = registered_on_main (registered_on_main known tr1) tr2.
Proof. apply fold_left_app. Qed.

(** A method call on a view sends nothing about the registry. *)
Lemma call_registered_on_main known r (m : M ExtHostWebviewView.t unit) s :
  (∀ v, registered_on_main known (trace (m v)) = known) →
  registered_on_main known (trace (call r m s)) = known.
Proof.
  intros Hm. destruct (heap s !! r) as [v|] eqn:Hv.
  - rewrite (call_Some _ _ _ _ Hv). cbn [trace]. apply Hm.
  - by rewrite call_None.
Qed.

Lemma dispose_registered_on_main known r v :
  registered_on_main known (trace (ExtHostWebviewView.dispose r v)) = known.
Proof. rewrite dispose_trace. by destruct (ExtHostWebviewView._isDisposed v). Qed.

Lemma setVisible_registered_on_main known r b v :
  registered_on_main known (trace (ExtHostWebviewView._setVisible r b v)) = known.
Proof.
  destruct (decide (b = ExtHostWebviewView._isVisible v)).
  - by rewrite setVisible_same.
  - by rewrite setVisible_other.
Qed.

Lemma set_title_registered_on_main known value v :
  registered_on_main known (trace (ExtHostWebviewView.set_title value v)) = known.
Proof.
  destruct (ExtHostWebviewView._isDisposed v) eqn:Hd.
  - by rewrite set_title_disposed.
  - destruct (decide (ExtHostWebviewView._title v = value)).
    + by rewrite set_title_same.
    + by rewrite set_title_other.
Qed.

Lemma step_registered_on_main op s :
  registered_on_main (dom (_viewProviders s)) (trace (step op s))
    = dom (_viewProviders (final (step op s))).
Proof.
  pose proof (step_frame op s) as Hframe.
  destruct op; cbn [is_registry_op] in Hframe; cbn zeta in Hframe;
    try rewrite Hframe; cbn [step].
  - destruct (_viewProviders s !! viewType) eqn:He.
    + by rewrite (void_Throw _ _ _ _ _
                    (register_taken _ _ _ _ _ (mk_is_Some _ _ He))).
    + rewrite (void_Ok _ _ _ _ _ (register_fresh _ _ _ _ _ He)). simpl.
      by rewrite dom_insert_L.
  - simpl. by rewrite dom_delete_L.
  - destruct (_viewProviders s !! viewType) as [entry|] eqn:He.
    + by rewrite (resolve_registered _ _ _ _ _ _ He).
    + by rewrite resolve_unregistered.
  - destruct (_webviewViews s !! webviewHandle) as [r|] eqn:Hr.
    + rewrite (visibility_known _ _ _ _ Hr).
      apply call_registered_on_main. intros. apply setVisible_registered_on_main.
    + by rewrite visibility_unknown.
  - destruct (_webviewViews s !! webviewHandle) as [r|] eqn:Hr.
    + rewrite (disposeWebviewView_known _ _ _ Hr).
      apply (call_registered_on_main _ r _ (with_webviewViews _ s)).
      intros. apply dispose_registered_on_main.
    + by rewrite disposeWebviewView_unknown.
  - apply call_registered_on_main. intros. apply dispose_registered_on_main.
  - apply call_registered_on_main. intros. apply set_title_registered_on_main.
Qed.

Lemma run_registered_on_main ops s :
  registered_on_main (dom (_viewProviders s)) (trace_after ops s)
    = dom (_viewProviders (state_after ops s)).
Proof.
  revert s. induction ops as [|op ops IH]; intros s; [done|].
  rewrite state_after_cons, trace_after_cons, registered_on_main_app.
  by rewrite step_registered_on_main, IH.
Qed.

(** X10. The main thread is told of every change of the registry: after
    any sequence of operations, a main thread that adds a view type on
    each [$registerWebviewViewProvider] and removes it on each
    [$unregisterWebviewViewProvider] holds exactly the view types that
    are in [_viewProviders]. *)
Theorem main_thread_registry_in_sync (ops : list Op) :
  registered_on_main ∅ (trace_after ops constructor)
    = dom (_viewProviders (state_after ops constructor)).
Proof.
  rewrite <- run_registered_on_main. simpl. by rewrite dom_empty_L.
Qed.

End RegistryOverTime.

(** ** One view over time: title, visibility, disposal *)

Section ViewOverTime.
Context `{H : Host}.
Import ExtHostWebviewViews.

Implicit Types (s : ExtHostWebviewViews.t) (r : Ref)
  (v : ExtHostWebviewView.t).

Lemma set_title_live value v :
  ExtHostWebviewView._isDisposed v = false →
  ExtHostWebviewView.set_title value v
    = mkOutcome (Ok tt) (ExtHostWebviewView.with_title value v)
        (if decide (ExtHostWebviewView._title v = value) then []
         else [Rpc_setWebviewViewTitle (ExtHostWebviewView._handle v) value]).
Proof.
  intros Hd. case_decide as Ht.
  - rewrite set_title_same by done. subst value. by destruct v.
  - by rewrite set_title_other.
Qed.

(** X11. On a view that is not disposed, a title that was assigned is
    the title that is read, without any further effect; and assigning the
    same value once more sends no second message. *)
Theorem title_roundtrip (value : option string) v :
  ExtHostWebviewView._isDisposed v = false →
  let v1 := final (ExtHostWebviewView.set_title value v) in
  ExtHostWebviewView.title v1 = mkOutcome (Ok value) v1 []
  ∧ ExtHostWebviewView.set_title value v1 = mkOutcome (Ok tt) v1 [].
Proof.
  intros Hd v1. subst v1. rewrite set_title_live by done. cbn [final].
  split.
  - by rewrite title_live.
  - by rewrite set_title_same.
Qed.

Lemma last_cons_default {A} (x d : A) (l : list A) :
  List.last (x :: l) d = List.last l x.
Proof.
  revert x d. induction l as [|y l IH]; intros x d; [done|].
  change (List.last (x :: y :: l) d) with (List.last (y :: l) d).
  by rewrite (IH y d), (IH y x).
Qed.

Lemma title_on_main_app shown tr1 tr2 :
  title_on_main shown (tr1 ++ tr2)
    = title_on_main (title_on_main shown tr1) tr2.
Proof. apply fold_left_app. Qed.

(** X12. Any series of title assignments on a view that is not disposed
    succeeds, leaves the last assigned value as the title, and keeps the
    main thread in step: following the [$setWebviewViewTitle] messages
    from the title the view had gives the title the view has.  No more
    messages are sent than assignments made. *)
Theorem titles_reach_main_thread (xs : list (option string)) v :
  ExtHostWebviewView._isDisposed v = false →
  let o := assign_titles xs v in
  result o = Ok tt
  ∧ ExtHostWebviewView._title (final o)
    = List.last xs (ExtHostWebviewView._title v)
  ∧ title_on_main (ExtHostWebviewView._title v) (trace o)
    = ExtHostWebviewView._title (final o)
  ∧ length (trace o) ≤ length xs.
Proof.
  revert v. induction xs as [|x xs IH]; intros v Hd; [done|].
  cbn [assign_titles].
  rewrite (bind_Ok _ _ _ _ _ _ (set_title_live x v Hd)).
  cbn [result final trace].
  destruct (IH (ExtHostWebviewView.with_title x v) Hd)
    as (Hres & Hlast & Hmain & Hlen).
  cbn zeta in *. simpl ExtHostWebviewView._title in *.
  split; [done|]. split; [by rewrite last_cons_default|]. split.
  - rewrite title_on_main_app, <- Hmain. f_equal.
    by case_decide.
  - rewrite length_app. case_decide; simpl; lia.
Qed.

(** X13. For any series of visibility values relayed to a view, disposed
    or not: [onDidChangeVisibility] is fired once for each value that
    differs from the one before it and nothing else is emitted; the view
    ends with the last value relayed, which is its first value if the
    number of events fired is even and the opposite if it is odd. *)
Theorem visibility_events_count_changes (r : Ref) (bs : list bool) v :
  let o := relay_visibility r bs v in
  let n := changes (ExtHostWebviewView._isVisible v) bs in
  result o = Ok tt
  ∧ trace o = replicate n (Fire r onDidChangeVisibility)
  ∧ ExtHostWebviewView._isVisible (final o)
    = List.last bs (ExtHostWebviewView._isVisible v)
  ∧ ExtHostWebviewView._isVisible (final o)
    = (if Nat.even n then ExtHostWebviewView._isVisible v
       else negb (ExtHostWebviewView._isVisible v)).
Proof.
  revert v. induction bs as [|b bs IH]; intros v; [done|].
  cbn [relay_visibility changes]. cbn zeta.
  destruct (decide (b = ExtHostWebviewView._isVisible v)) as [Hb|Hb].
  - rewrite (bind_Ok _ _ _ _ _ _ (setVisible_same r b v Hb)).
    cbn [result final trace].
    rewrite bool_decide_eq_true_2 by done.
    rewrite last_cons_default, Hb. apply IH.
  - rewrite (bind_Ok _ _ _ _ _ _ (setVisible_other r b v Hb)).
    cbn [result final trace].
    rewrite bool_decide_eq_false_2 by done.
    destruct (IH (ExtHostWebviewView.with_isVisible b v))
      as (Hres & Htr & Hlast & Hpar).
    cbn zeta in *. simpl ExtHostWebviewView._isVisible in *.
    split; [done|]. split; [by rewrite Htr|].
    split; [by rewrite last_cons_default|].
    rewrite Hpar. change (1 + ?n) with (S n).
    rewrite Nat.even_succ, <- Nat.negb_even.
    destruct (Nat.even (changes b bs)), b, (ExtHostWebviewView._isVisible v);
      done.
Qed.

Lemma count_fires_app r emitter tr1 tr2 :
  count_fires r emitter (tr1 ++ tr2)
    = count_fires r emitter tr1 + count_fires r emitter tr2.
Proof. unfold count_fires. by rewrite List.filter_app, length_app. Qed.

Lemma disposed_in_with_webviewViews m s r :
  disposed_in (with_webviewViews m s) r = disposed_in s r.
Proof. reflexivity. Qed.

(** A call of [dispose] fires for [r] exactly if it disposes [r]. *)
Lemma call_dispose_count r r' s :
  count_fires r onDidDispose
    (trace (call r' (ExtHostWebviewView.dispose r') s))
    + Nat.b2n (disposed_in s r)
  = Nat.b2n (disposed_in (final (call r' (ExtHostWebviewView.dispose r') s)) r).
Proof.
  destruct (heap s !! r') as [v'|] eqn:Hv'; [|by rewrite call_None].
  assert (r' < length (heap s)) as Hlt by (by eapply lookup_lt_Some).
  rewrite (call_Some _ _ _ _ Hv'). cbn [trace final].
  rewrite dispose_trace, dispose_final. unfold disposed_in. simpl.
  destruct (decide (r' = r)) as [->|Hne].
  - rewrite list_lookup_insert_eq by done. rewrite Hv'. simpl.
    destruct (ExtHostWebviewView._isDisposed v'); [done|].
    unfold count_fires. simpl. by rewrite bool_decide_eq_true_2.
  - rewrite list_lookup_insert_ne by done.
    destruct (ExtHostWebviewView._isDisposed v'); [done|].
    unfold count_fires. simpl. by rewrite bool_decide_eq_false_2.
Qed.

(** Any other method neither fires [onDidDispose] nor changes
    [#isDisposed]. *)
Lemma call_other_count r r' (m : M ExtHostWebviewView.t unit) s :
  (∀ v, count_fires r onDidDispose (trace (m v)) = 0
        ∧ ExtHostWebviewView._isDisposed (final (m v))
          = ExtHostWebviewView._isDisposed v) →
  count_fires r onDidDispose (trace (call r' m s)) + Nat.b2n (disposed_in s r)
  = Nat.b2n (disposed_in (final (call r' m s)) r).
Proof.
  intros Hm.
  destruct (heap s !! r') as [v'|] eqn:Hv'; [|by rewrite call_None].
  assert (r' < length (heap s)) as Hlt by (by eapply lookup_lt_Some).
  rewrite (call_Some _ _ _ _ Hv'). cbn [trace final].
  destruct (Hm v') as [-> Hd]. unfold disposed_in. simpl.
  destruct (decide (r' = r)) as [->|Hne].
  - rewrite list_lookup_insert_eq by done. by rewrite Hv', Hd.
  - by rewrite list_lookup_insert_ne.
Qed.

Lemma setVisible_quiet r r' b v :
  count_fires r onDidDispose (trace (ExtHostWebviewView._setVisible r' b v)) = 0
  ∧ ExtHostWebviewView._isDisposed (final (ExtHostWebviewView._setVisible r' b v))
    = ExtHostWebviewView._isDisposed v.
Proof.
  destruct (decide (b = ExtHostWebviewView._isVisible v)).
  - by rewrite setVisible_same.
  - by rewrite setVisible_other.
Qed.

Lemma set_title_quiet r value v :
  count_fires r onDidDispose (trace (ExtHostWebviewView.set_title value v)) = 0
  ∧ ExtHostWebviewView._isDisposed (final (ExtHostWebviewView.set_title value v))
    = ExtHostWebviewView._isDisposed v.
Proof.
  destruct (ExtHostWebviewView._isDisposed v) eqn:Hd.
  - by rewrite set_title_disposed.
  - rewrite set_title_live by done. by case_decide.
Qed.

Lemma step_dispose_count op s r :
  count_fires r onDidDispose (trace (step op s)) + Nat.b2n (disposed_in s r)
  = Nat.b2n (disposed_in (final (step op s)) r).
Proof.
  destruct op; cbn [step].
  - destruct (_viewProviders s !! viewType) eqn:He.
    + by rewrite (void_Throw _ _ _ _ _
                    (register_taken _ _ _ _ _ (mk_is_Some _ _ He))).
    + by rewrite (void_Ok _ _ _ _ _ (register_fresh _ _ _ _ _ He)).
  - done.
  - destruct (_viewProviders s !! viewType) as [entry|] eqn:He;
      [|by rewrite resolve_unregistered].
    rewrite (resolve_registered _ _ _ _ _ _ He). cbn [trace final].
    unfold disposed_in. simpl.
    destruct (decide (r < length (heap s))) as [Hlt|Hge].
    + by rewrite lookup_app_l.
    + rewrite (lookup_ge_None_2 (heap s)) by lia.
      destruct (decide (r = length (heap s))) as [->|Hne].
      * rewrite lookup_app_r by done. by rewrite Nat.sub_diag.
      * rewrite lookup_ge_None_2; [done|]. rewrite length_app. simpl. lia.
  - destruct (_webviewViews s !! webviewHandle) as [r'|] eqn:Hr;
      [|by rewrite visibility_unknown].
    rewrite (visibility_known _ _ _ _ Hr).
    apply call_other_count. intros. apply setVisible_quiet.
  - destruct (_webviewViews s !! webviewHandle) as [r'|] eqn:Hr;
      [|by rewrite disposeWebviewView_unknown].
    rewrite (disposeWebviewView_known _ _ _ Hr).
    rewrite <- (disposed_in_with_webviewViews
                  (delete webviewHandle (_webviewViews s)) s r).
    apply call_dispose_count.
  - apply call_dispose_count.
  - apply call_other_count. intros. apply set_title_quiet.
Qed.

Lemma run_dispose_count ops s r :
  count_fires r onDidDispose (trace_after ops s) + Nat.b2n (disposed_in s r)
  = Nat.b2n (disposed_in (state_after ops s) r).
Proof.
  revert s. induction ops as [|op ops IH]; intros s; [done|].
  rewrite state_after_cons, trace_after_cons, count_fires_app.
  rewrite <- IH, <- (step_dispose_count op s r). lia.
Qed.

(** X14. Over the whole life of the adapter, [onDidDispose] of a wrapper
    is fired at most once, whoever disposes it and however often: it has
    been fired once if the wrapper is now disposed, and not at all
    otherwise. *)
Theorem onDidDispose_fires_at_most_once (ops : list Op) (r : Ref) :
  count_fires r onDidDispose (trace_after ops constructor)
    = Nat.b2n (disposed_in (state_after ops constructor) r)
  ∧ count_fires r onDidDispose (trace_after ops constructor) ≤ 1.
Proof.
  pose proof (run_dispose_count ops constructor r) as Hc.
  change (disposed_in constructor r) with false in Hc. simpl in Hc.
  rewrite Nat.add_0_r in Hc. split; [done|].
  rewrite Hc. destruct (disposed_in _ r); simpl; lia.
Qed.

End ViewOverTime.

(** ** What never changes in a wrapper *)

Section Readonly.
Context `{H : Host}.
Import ExtHostWebviewViews.

Implicit Types (s : ExtHostWebviewViews.t) (r : Ref)
  (v : ExtHostWebviewView.t).

Lemma later_of_refl v : later_of v v.
Proof. by repeat split. Qed.

Lemma later_of_trans v1 v2 v3 : later_of v1 v2 → later_of v2 v3 → later_of v1 v3.
Proof.
  intros (Hh & Ht & Hw & Hd) (Hh' & Ht' & Hw' & Hd').
  split; [congruence|]. split; [congruence|]. split; [congruence|].
  intros Hdis. destruct (Hd Hdis) as [Hd2 Htitle].
  destruct (Hd' Hd2) as [Hd3 Htitle']. split; [done | congruence].
Qed.

Lemma dispose_later r v : later_of v (final (ExtHostWebviewView.dispose r v)).
Proof. rewrite dispose_final. by repeat split. Qed.

Lemma setVisible_later r b v :
  later_of v (final (ExtHostWebviewView._setVisible r b v)).
Proof.
  destruct (decide (b = ExtHostWebviewView._isVisible v)).
  - rewrite setVisible_same by done. apply later_of_refl.
  - rewrite setVisible_other by done. by repeat split.
Qed.

Lemma set_title_later value v :
  later_of v (final (ExtHostWebviewView.set_title value v)).
Proof.
  destruct (ExtHostWebviewView._isDisposed v) eqn:Hd.
  - rewrite set_title_disposed by done. apply later_of_refl.
  - rewrite set_title_live by done. repeat split; simpl; congruence.
Qed.

Lemma call_later r' (m : M ExtHostWebviewView.t unit) s r v :
  (∀ w, later_of w (final (m w))) →
  heap s !! r = Some v →
  ∃ v', heap (final (call r' m s)) !! r = Some v' ∧ later_of v v'.
Proof.
  intros Hm Hv. eexists. split; [by apply call_lookup|].
  case_decide; [apply Hm | apply later_of_refl].
Qed.

Lemma step_later op s r v :
  heap s !! r = Some v →
  ∃ v', heap (final (step op s)) !! r = Some v' ∧ later_of v v'.
Proof.
  intros Hv.
  assert (∃ v', heap s !! r = Some v' ∧ later_of v v') as Hsame
    by (exists v; split; [done | apply later_of_refl]).
  destruct op; cbn [step].
  - rewrite void_final.
    destruct (_viewProviders s !! viewType) eqn:He.
    + by rewrite register_taken.
    + by rewrite register_fresh.
  - done.
  - destruct (_viewProviders s !! viewType) as [entry|] eqn:He;
      [|by rewrite resolve_unregistered].
    rewrite (resolve_registered _ _ _ _ _ _ He). simpl.
    exists v. split; [|apply later_of_refl].
    rewrite lookup_app_l; [done|]. by eapply lookup_lt_Some.
  - destruct (_webviewViews s !! webviewHandle) as [r'|] eqn:Hr;
      [|by rewrite visibility_unknown].
    rewrite (visibility_known _ _ _ _ Hr).
    apply call_later; [|done]. intros. apply setVisible_later.
  - destruct (_webviewViews s !! webviewHandle) as [r'|] eqn:Hr;
      [|by rewrite disposeWebviewView_unknown].
    rewrite (disposeWebviewView_known _ _ _ Hr).
    apply (call_later r' _ (with_webviewViews _ s)); [|done].
    intros. apply dispose_later.
  - apply call_later; [|done]. intros. apply dispose_later.
  - apply call_later; [|done]. intros. apply set_title_later.
Qed.

Lemma run_later ops s r v :
  heap s !! r = Some v →
  ∃ v', heap (state_after ops s) !! r = Some v' ∧ later_of v v'.
Proof.
  revert s v. induction ops as [|op ops IH]; intros s v Hv.
  - exists v. split; [done | apply later_of_refl].
  - rewrite state_after_cons.
    destruct (step_later op s r v Hv) as (v1 & Hv1 & Hl1).
    destruct (IH _ _ Hv1) as (v2 & Hv2 & Hl2).
    exists v2. split; [done|]. by eapply later_of_trans.
Qed.

(** X15. A wrapper is never removed from the heap, and whatever
    operations follow, the fields declared [readonly] keep their values:
    [viewType] and [webview] always return what they returned when the
    wrapper was created, and the wrapper keeps its handle. *)
Theorem readonly_fields_never_change (ops : list Op) r v s :
  heap s !! r = Some v →
  let s' := state_after ops s in
  ∃ v',
    heap s' !! r = Some v'
    ∧ ExtHostWebviewView._handle v' = ExtHostWebviewView._handle v
    ∧ call r ExtHostWebviewView.viewType s'
      = mkOutcome (Ok (ExtHostWebviewView._viewType v)) s' []
    ∧ call r ExtHostWebviewView.webview s'
      = mkOutcome (Ok (ExtHostWebviewView._webview v)) s' [].
Proof.
  intros Hv s'. destruct (run_later ops s r v Hv) as (v' & Hv' & Hl).
  destruct Hl as (Hh & Ht & Hw & _).
  exists v'. split; [done|]. split; [done|]. split.
  - rewrite (call_unchanged _ _ _ _ Hv'); [|done]. simpl. by rewrite Ht.
  - rewrite (call_unchanged _ _ _ _ Hv'); [|done]. simpl. by rewrite Hw.
Qed.

(** X16. Disposal freezes the title: once a wrapper is disposed, no
    operation changes its stored title again (every assignment throws
    before it writes), and the wrapper stays disposed. *)
Theorem disposed_title_is_frozen (ops : list Op) r v s :
  heap s !! r = Some v →
  ExtHostWebviewView._isDisposed v = true →
  ∃ v',
    heap (state_after ops s) !! r = Some v'
    ∧ ExtHostWebviewView._isDisposed v' = true
    ∧ ExtHostWebviewView._title v' = ExtHostWebviewView._title v.
Proof.
  intros Hv Hd. destruct (run_later ops s r v Hv) as (v' & Hv' & Hl).
  destruct Hl as (_ & _ & _ & Hfrozen). destruct (Hfrozen Hd).
  by exists v'.
Qed.

End Readonly.

(** ** A wrapper whose handle is resolved again *)

Section Orphans.
Context `{H : Host}.
Import ExtHostWebviewViews.

Implicit Types (s : ExtHostWebviewViews.t) (r : Ref)
  (v : ExtHostWebviewView.t).

(** A call on another wrapper fires nothing for [r] and leaves it be. *)
Lemma call_elsewhere r r' emitter (m : M ExtHostWebviewView.t unit) s v :
  r' ≠ r →
  (∀ w, count_fires r emitter (trace (m w)) = 0) →
  heap s !! r = Some v →
  heap (final (call r' m s)) !! r = Some v
  ∧ count_fires r emitter (trace (call r' m s)) = 0.
Proof.
  intros Hne Hm Hv. split.
  - rewrite (call_lookup _ _ _ _ _ Hv). by case_decide.
  - destruct (heap s !! r') as [w|] eqn:Hw.
    + rewrite (call_Some _ _ _ _ Hw). cbn [trace]. apply Hm.
    + by rewrite call_None.
Qed.

Lemma dispose_fires_elsewhere r r' emitter w :
  r' ≠ r →
  count_fires r emitter (trace (ExtHostWebviewView.dispose r' w)) = 0.
Proof.
  intros Hne. rewrite dispose_trace.
  destruct (ExtHostWebviewView._isDisposed w); [done|].
  unfold count_fires. simpl. destruct emitter; [done|].
  by rewrite bool_decide_eq_false_2.
Qed.

Lemma setVisible_fires_elsewhere r r' emitter b w :
  r' ≠ r →
  count_fires r emitter (trace (ExtHostWebviewView._setVisible r' b w)) = 0.
Proof.
  intros Hne. destruct (decide (b = ExtHostWebviewView._isVisible w)).
  - by rewrite setVisible_same.
  - rewrite setVisible_other by done.
    unfold count_fires. simpl. destruct emitter; [|done].
    by rewrite bool_decide_eq_false_2.
Qed.

Lemma set_title_fires_nothing r emitter value w :
  count_fires r emitter (trace (ExtHostWebviewView.set_title value w)) = 0.
Proof.
  destruct (ExtHostWebviewView._isDisposed w) eqn:Hd.
  - by rewrite set_title_disposed.
  - rewrite set_title_live by done. by case_decide.
Qed.

(** A wrapper that is in no entry stays as it is, in no entry and silent,
    under every operation but a call of the extension on the wrapper
    itself. *)
Lemma step_keeps_orphan op s r v emitter :
  calls_view r op = false →
  heap s !! r = Some v →
  unfiled s r →
  heap (final (step op s)) !! r = Some v
  ∧ unfiled (final (step op s)) r
  ∧ count_fires r emitter (trace (step op s)) = 0.
Proof.
  intros Hop Hv Hun.
  assert (r < length (heap s)) as Hlt by (by eapply lookup_lt_Some).
  destruct op; cbn [step].
  - destruct (_viewProviders s !! viewType) eqn:He.
    + by rewrite (void_Throw _ _ _ _ _
                    (register_taken _ _ _ _ _ (mk_is_Some _ _ He))).
    + by rewrite (void_Ok _ _ _ _ _ (register_fresh _ _ _ _ _ He)).
  - done.
  - destruct (_viewProviders s !! viewType) as [entry|] eqn:He;
      [|by rewrite resolve_unregistered].
    rewrite (resolve_registered _ _ _ _ _ _ He). cbn [final trace].
    split; [simpl; by rewrite lookup_app_l|]. split; [|done].
    intros k. simpl. rewrite lookup_insert. case_decide.
    + intros [= ?]. lia.
    + apply Hun.
  - destruct (_webviewViews s !! webviewHandle) as [r'|] eqn:Hr;
      [|by rewrite visibility_unknown].
    assert (r' ≠ r) as Hne by (intros ->; by apply (Hun webviewHandle)).
    rewrite (visibility_known _ _ _ _ Hr).
    destruct (call_elsewhere r r' emitter
                (ExtHostWebviewView._setVisible r' visible) s v Hne)
      as [Hheap Hquiet]; [intros; by apply setVisible_fires_elsewhere|done|].
    split; [done|]. split; [|done].
    intros k. rewrite call_webviewViews. apply Hun.
  - destruct (_webviewViews s !! webviewHandle) as [r'|] eqn:Hr;
      [|by rewrite disposeWebviewView_unknown].
    assert (r' ≠ r) as Hne by (intros ->; by apply (Hun webviewHandle)).
    rewrite (disposeWebviewView_known _ _ _ Hr).
    destruct (call_elsewhere r r' emitter (ExtHostWebviewView.dispose r')
                (with_webviewViews (delete webviewHandle (_webviewViews s)) s)
                v Hne)
      as [Hheap Hquiet]; [intros; by apply dispose_fires_elsewhere|done|].
    split; [done|]. split; [|done].
    intros k. rewrite call_webviewViews. simpl. rewrite lookup_delete.
    case_decide; [done | apply Hun].
  - simpl in Hop. apply bool_decide_eq_false in Hop.
    destruct (call_elsewhere r view emitter (ExtHostWebviewView.dispose view)
                s v Hop)
      as [Hheap Hquiet]; [intros; by apply dispose_fires_elsewhere|done|].
    split; [done|]. split; [|done].
    intros k. rewrite call_webviewViews. apply Hun.
  - simpl in Hop. apply bool_decide_eq_false in Hop.
    destruct (call_elsewhere r view emitter
                (ExtHostWebviewView.set_title value) s v Hop)
      as [Hheap Hquiet]; [intros; apply set_title_fires_nothing|done|].
    split; [done|]. split; [|done].
    intros k. rewrite call_webviewViews. apply Hun.
Qed.

Lemma run_keeps_orphan ops s r v emitter :
  forallb (fun op => negb (calls_view r op)) ops = true →
  heap s !! r = Some v →
  unfiled s r →
  heap (state_after ops s) !! r = Some v
  ∧ unfiled (state_after ops s) r
  ∧ count_fires r emitter (trace_after ops s) = 0.
Proof.
  revert s. induction ops as [|op ops IH]; intros s Hops Hv Hun; [done|].
  simpl in Hops. apply andb_true_iff in Hops as [Hop Hops].
  apply negb_true_iff in Hop.
  destruct (step_keeps_orphan op s r v emitter Hop Hv Hun)
    as (Hv1 & Hun1 & Hq1).
  destruct (IH _ Hops Hv1 Hun1) as (Hv2 & Hun2 & Hq2).
  rewrite state_after_cons, trace_after_cons, count_fires_app.
  split; [done|]. split; [done | lia].
Qed.

(** X6. In a state the object can reach, resolving a handle that is
    already in the table replaces the entry by a new wrapper.  The
    earlier wrapper is left exactly as it was: it is not disposed and no
    [onDidDispose] is fired for it.  From then on, through whatever
    operations follow other than calls the extension makes on that
    wrapper itself, it is in no entry of the table, keeps every field,
    and none of its events is fired: no visibility change and no
    [$disposeWebviewView], for any handle, reaches it again. *)
Theorem resolve_again_orphans_wrapper (ops0 ops : list Op)
    (webviewHandle : WebviewPanelHandle) (viewType : string)
    (state : ViewState) (cancellation : CancellationToken)
    (entry : Entry) r v :
  let s := state_after ops0 constructor in
  _viewProviders s !! viewType = Some entry →
  _webviewViews s !! webviewHandle = Some r →
  heap s !! r = Some v →
  forallb (fun op => negb (calls_view r op)) ops = true →
  let o := resolveWebviewView webviewHandle viewType state cancellation s in
  let s' := state_after ops (final o) in
  _webviewViews (final o) !! webviewHandle = Some (length (heap s))
  ∧ length (heap s) ≠ r
  ∧ heap (final o) !! r = Some v
  ∧ count_fires r onDidDispose (trace o) = 0
  ∧ heap s' !! r = Some v
  ∧ unfiled s' r
  ∧ count_fires r onDidDispose (trace_after ops (final o)) = 0
  ∧ count_fires r onDidChangeVisibility (trace_after ops (final o)) = 0.
Proof.
  intros s He Hr Hv Hops o s'.
  pose proof (reachable_wellformed ops0) as Hwf. fold s in Hwf.
  assert (r < length (heap s)) as Hlt by (by eapply lookup_lt_Some).
  assert (heap (final o) !! r = Some v ∧ unfiled (final o) r
          ∧ _webviewViews (final o) !! webviewHandle = Some (length (heap s))
          ∧ count_fires r onDidDispose (trace o) = 0)
    as (Hv1 & Hun1 & Hnew & Hq).
  { subst o. rewrite (resolve_registered _ _ _ _ _ _ He).
    cbn [final trace]. split; [simpl; by rewrite lookup_app_l|].
    split; [|split; [simpl; apply lookup_insert_eq | done]].
    intros k. simpl. rewrite lookup_insert. case_decide as Hk.
    - intros [= ?]. lia.
    - intros Hkr. destruct (Hwf _ _ Hkr) as (w & Hw & Hhw).
      destruct (Hwf _ _ Hr) as (w' & Hw' & Hhw'). congruence. }
  destruct (run_keeps_orphan ops (final o) r v onDidDispose Hops Hv1 Hun1)
    as (Hv2 & Hun2 & Hq2).
  destruct (run_keeps_orphan ops (final o) r v onDidChangeVisibility
              Hops Hv1 Hun1) as (_ & _ & Hq3).
  split; [done|]. split; [lia|]. done.
Qed.

End Orphans.

(** ** Concrete runs *)

#[local] Existing Instance test_host.

(** C10 as stated does not hold: a view is resolved (visible), the
    extension disposes it, and the main thread then relays that the view
    was hidden.  The wrapper is still in [_webviewViews], [_setVisible]
    stores the new value, and [visible] returns [false], not the [true] the
    view had when it was disposed. *)
Lemma visible_after_dispose_counterexample :
  (ExtHostWebviewView._isVisible <$> ExtHostWebviewViews.heap cats_resolved !! 0)
    = Some true
  ∧ (ExtHostWebviewView._isDisposed
       <$> ExtHostWebviewViews.heap cats_disposed_then_hidden !! 0) = Some true
  ∧ result (ExtHostWebviewViews.call 0 ExtHostWebviewView.visible
              cats_disposed_then_hidden) = Ok false
  ∧ ¬ visible_frozen_by_dispose (H := test_host).
Proof.
  split; [reflexivity|]. split; [reflexivity|]. split; [reflexivity|].
  intros Hlaw.
  specialize (Hlaw cats_resolved 0 _
    [@Op_onDidChangeWebviewViewVisibility test_host "h1" false] eq_refl).
  vm_compute in Hlaw. discriminate Hlaw.
Qed.

(** In the resolved state the table holds exactly one live wrapper for
    "h1", and none for a handle that was never resolved. *)
Example cats_resolved_live_entries :
  map_to_list (live_entries cats_resolved "h1") = [("h1", 0)]
  ∧ map_to_list (live_entries cats_resolved "h2") = []
  ∧ map_to_list (live_entries cats_disposed_then_hidden "h1") = [].
Proof. repeat split; reflexivity. Qed.

(** Resolving the same handle twice replaces the entry: the table then
    holds the second wrapper only, while the first one, never disposed, is
    still in the heap. *)
Example resolve_twice_replaces_entry :
  let s :=
    state_after [@Op_resolveWebviewView test_host "h1" "cats" "st" 43]
      cats_resolved in
  map_to_list (live_entries s "h1") = [("h1", 1)]
  ∧ (ExtHostWebviewView._isDisposed <$> ExtHostWebviewViews.heap s !! 0)
    = Some false.
Proof. split; reflexivity. Qed.

(** A second registration of "cats" throws and changes nothing. *)
Lemma register_throws_iff_registered_witness :
  is_Some (ExtHostWebviewViews._viewProviders cats_registered !! "cats")
  ∧ result (ExtHostWebviewViews.registerWebviewViewProvider 8 "cats" 4 None
              cats_registered)
    = Throw "View provider for 'cats' already registered"
  ∧ final (ExtHostWebviewViews.registerWebviewViewProvider 8 "cats" 4 None
             cats_registered)
    = cats_registered.
Proof.
  assert (is_Some (ExtHostWebviewViews._viewProviders cats_registered !! "cats"))
    as Hs by (vm_compute; eauto).
  destruct (register_throws_iff_registered (H := test_host)
              8 "cats" 4 None cats_registered)
    as (Hiff & _ & Hsame & _).
  split; [exact Hs|]. split; [exact (proj2 Hiff Hs) | exact (proj1 (Hsame Hs))].
Defined.



(** Resolving "cats" hands token 42 to provider 3. *)
Lemma resolve_passes_cancellation_witness :
  result (ExtHostWebviewViews.resolveWebviewView "h1" "cats" "st" 42
            cats_registered) = Ok tt
  ∧ ∃ entry,
      ExtHostWebviewViews._viewProviders cats_registered !! "cats" = Some entry
      ∧ trace (ExtHostWebviewViews.resolveWebviewView "h1" "cats" "st" 42
                 cats_registered)
        = [CreateNewWebview "h1" (ExtHostWebviewViews.extension entry);
           ResolveWebviewView (ExtHostWebviewViews.provider entry) 0 "st" 42].
Proof.
  assert (result (ExtHostWebviewViews.resolveWebviewView "h1" "cats" "st" 42
                    cats_registered) = Ok tt) as Hok by reflexivity.
  split; [exact Hok|].
  destruct (resolve_passes_cancellation (H := test_host)
              "h1" "cats" "st" 42 cats_registered Hok)
    as (entry & He & Htr & _).
  exists entry. split; [exact He | exact Htr].
Defined.

(** Register "cats", resolve a view, dispose the registration, register
    "cats" again for another provider. *)
Lemma register_dispose_roundtrip_witness :
  result (ExtHostWebviewViews.registerWebviewViewProvider 7 "cats" 3 None
            ExtHostWebviewViews.constructor)
    = Ok {| captured_viewType := "cats" |}
  ∧ result
      (ExtHostWebviewViews.registerWebviewViewProvider 8 "cats" 4 None
         (final
            (ExtHostWebviewViews.Disposable_dispose {| captured_viewType := "cats" |}
               (state_after [@Op_resolveWebviewView test_host "h1" "cats" "st" 42]
                  (final
                     (ExtHostWebviewViews.registerWebviewViewProvider 7 "cats" 3
                        None ExtHostWebviewViews.constructor))))))
    = Ok {| captured_viewType := "cats" |}.
Proof.
  assert (result (ExtHostWebviewViews.registerWebviewViewProvider 7 "cats" 3 None
                    ExtHostWebviewViews.constructor)
          = Ok {| captured_viewType := "cats" |}) as Hok by reflexivity.
  split; [exact Hok|].
  destruct (register_dispose_roundtrip (H := test_host) 7 "cats" 3 None 8 4 None
              [@Op_resolveWebviewView test_host "h1" "cats" "st" 42]
              {| captured_viewType := "cats" |}
              ExtHostWebviewViews.constructor Hok)
    as (_ & _ & _ & _ & Hagain & _).
  exact Hagain.
Defined.

(** The resolved view is disposed by the extension, then hidden by the
    main thread; its title can no longer be read or assigned. *)
Lemma disposed_title_throws_witness :
  ExtHostWebviewViews.heap cats_resolved !! 0 = Some cats_view
  ∧ ExtHostWebviewViews.call 0 ExtHostWebviewView.title cats_disposed_then_hidden
    = mkOutcome (Throw "Webview is disposed") cats_disposed_then_hidden []
  ∧ ExtHostWebviewViews.call 0 (ExtHostWebviewView.set_title (Some "Cats"))
      cats_disposed_then_hidden
    = mkOutcome (Throw "Webview is disposed") cats_disposed_then_hidden [].
Proof.
  assert (ExtHostWebviewViews.heap cats_resolved !! 0 = Some cats_view)
    as Hv by reflexivity.
  split; [exact Hv|].
  exact (proj1 (disposed_title_throws (H := test_host) 0 cats_view "h1" (Some "Cats")
                  [@Op_onDidChangeWebviewViewVisibility test_host "h1" false]
                  cats_resolved Hv)).
Defined.

(** Three calls of [dispose] on the fresh view fire once. *)
Lemma dispose_idempotent_witness :
  ExtHostWebviewView._isDisposed cats_view = false
  ∧ times 3 (ExtHostWebviewView.dispose 0) cats_view
    = mkOutcome (Ok tt) (ExtHostWebviewView.with_isDisposed true cats_view)
        [Fire 0 onDidDispose; SuperDispose 0].
Proof.
  split; [reflexivity|].
  exact (proj1 (proj2 (proj2
    (dispose_idempotent (H := test_host) 0 cats_view 2 [] cats_resolved eq_refl)))).
Defined.

(** Hiding the resolved, visible view fires once and is then reported. *)
Lemma visibility_relay_witness :
  ExtHostWebviewViews._webviewViews cats_resolved !! "h1" = Some 0
  ∧ ExtHostWebviewViews.heap cats_resolved !! 0 = Some cats_view
  ∧ trace (ExtHostWebviewViews.onDidChangeWebviewViewVisibility "h1" false
             cats_resolved)
    = [Fire 0 onDidChangeVisibility]
  ∧ result
      (ExtHostWebviewViews.call 0 ExtHostWebviewView.visible
         (final (ExtHostWebviewViews.onDidChangeWebviewViewVisibility "h1" false
                   cats_resolved)))
    = Ok false.
Proof.
  assert (ExtHostWebviewViews._webviewViews cats_resolved !! "h1" = Some 0)
    as Hr by reflexivity.
  assert (ExtHostWebviewViews.heap cats_resolved !! 0 = Some cats_view)
    as Hv by reflexivity.
  split; [exact Hr|]. split; [exact Hv|].
  destruct (visibility_relay (H := test_host)
              "h1" false 0 cats_view cats_resolved Hr Hv)
    as (_ & _ & Htr & Hvis & _).
  split; [exact Htr | exact Hvis].
Defined.

(** Giving the fresh view a title sends it once. *)
Lemma set_title_frame_witness :
  ExtHostWebviewView._isDisposed cats_view = false
  ∧ Some "Cats" ≠ ExtHostWebviewView._title cats_view
  ∧ final (ExtHostWebviewView.set_title (Some "Cats") cats_view)
    = ExtHostWebviewView.with_title (Some "Cats") cats_view
  ∧ trace (ExtHostWebviewView.set_title (Some "Cats") cats_view)
    = [Rpc_setWebviewViewTitle "h1" (Some "Cats")].
Proof.
  assert (Some "Cats" ≠ ExtHostWebviewView._title cats_view) as Hne
    by discriminate.
  split; [reflexivity|]. split; [exact Hne|].
  destruct (set_title_frame (H := test_host)
              (Some "Cats") 0 cats_view cats_resolved eq_refl)
    as (_ & _ & Hother & _).
  exact (Hother Hne).
Defined.

(** After the run of the counterexample the getters still answer. *)
Lemma getters_never_throw_witness :
  ExtHostWebviewViews.heap cats_resolved !! 0 = Some cats_view
  ∧ ∃ v',
      ExtHostWebviewViews.heap
        (final (step (@Op_view_dispose test_host 0) cats_resolved)) !! 0 = Some v'
      ∧ ExtHostWebviewViews.call 0 ExtHostWebviewView.visible
          (final (step (@Op_view_dispose test_host 0) cats_resolved))
        = mkOutcome (Ok (ExtHostWebviewView._isVisible v'))
            (final (step (@Op_view_dispose test_host 0) cats_resolved)) [].
Proof.
  assert (ExtHostWebviewViews.heap cats_resolved !! 0 = Some cats_view)
    as Hv by reflexivity.
  split; [exact Hv|].
  destruct (getters_never_throw (H := test_host) 0 cats_view false None
              (@Op_view_dispose test_host 0) cats_resolved)
    as (_ & _ & _ & _ & _ & _ & _ & Hstep).
  destruct (Hstep Hv) as (v' & Hv' & Hcall & _).
  exists v'. split; [exact Hv' | exact Hcall].
Defined.

(** ** Concrete runs for the further properties *)

(** The main thread disposes the resolved view "h1". *)
Lemma disposeWebviewView_removes_and_disposes_witness :
  ExtHostWebviewViews._webviewViews cats_resolved !! "h1" = Some 0
  ∧ ExtHostWebviewViews.heap cats_resolved !! 0 = Some cats_view
  ∧ ExtHostWebviewViews._webviewViews
      (final (ExtHostWebviewViews.disposeWebviewView "h1" cats_resolved))
    = delete "h1" (ExtHostWebviewViews._webviewViews cats_resolved)
  ∧ trace (ExtHostWebviewViews.disposeWebviewView "h1" cats_resolved)
    = [Fire 0 onDidDispose; SuperDispose 0].
Proof.
  assert (ExtHostWebviewViews._webviewViews cats_resolved !! "h1" = Some 0)
    as Hr by reflexivity.
  assert (ExtHostWebviewViews.heap cats_resolved !! 0 = Some cats_view)
    as Hv by reflexivity.
  split; [exact Hr|]. split; [exact Hv|].
  destruct (disposeWebviewView_removes_and_disposes (H := test_host)
              "h1" 0 cats_view cats_resolved Hr Hv)
    as (_ & Htable & _ & _ & Htr).
  split; [exact Htable | exact Htr].
Defined.

(** Nobody resolved "h2". *)
Lemma unknown_handle_throws_witness :
  ExtHostWebviewViews._webviewViews cats_resolved !! "h2" = None
  ∧ ExtHostWebviewViews.disposeWebviewView "h2" cats_resolved
    = mkOutcome (Throw "No webview found") cats_resolved []
  ∧ ExtHostWebviewViews.onDidChangeWebviewViewVisibility "h2" false
      cats_resolved
    = mkOutcome (Throw "No webview found") cats_resolved [].
Proof.
  assert (ExtHostWebviewViews._webviewViews cats_resolved !! "h2" = None)
    as Hn by reflexivity.
  split; [exact Hn|].
  destruct (unknown_handle_throws (H := test_host)
              [@Op_registerWebviewViewProvider test_host 7 "cats" 3 None;
               @Op_resolveWebviewView test_host "h1" "cats" "st" 42]
              "h2" false)
    as (_ & _ & Hthrow).
  exact (Hthrow Hn).
Defined.

(** "h1" is disposed by the main thread; the extension then assigns a
    title and another handle is resolved; "h1" is still unknown. *)
Lemma disposed_handle_stays_unknown_witness :
  ExtHostWebviewViews._webviewViews cats_resolved !! "h1" = Some 0
  ∧ ExtHostWebviewViews._webviewViews
      (state_after
         [@Op_disposeWebviewView test_host "h1";
          @Op_view_set_title test_host 0 (Some "Cats");
          @Op_resolveWebviewView test_host "h2" "cats" "st" 43]
         cats_resolved) !! "h1" = None.
Proof.
  assert (ExtHostWebviewViews._webviewViews cats_resolved !! "h1" = Some 0)
    as Hr by reflexivity.
  split; [exact Hr|].
  exact (proj1 (disposed_handle_stays_unknown (H := test_host) "h1" false
                  [@Op_view_set_title test_host 0 (Some "Cats");
                   @Op_resolveWebviewView test_host "h2" "cats" "st" 43]
                  0 cats_resolved Hr eq_refl)).
Defined.

(** The failing provider is registered and a view of its type is
    resolved: the call throws the provider's error, and the wrapper is
    filed all the same. *)
Lemma throw_changes_nothing_unless_provider_failed_witness :
  result (step (@Op_resolveWebviewView test_host "h1" "cats" "boom" 42)
            cats_failing)
    = Throw "boom"
  ∧ (final (step (@Op_resolveWebviewView test_host "h1" "cats" "boom" 42)
              cats_failing) = cats_failing
     ∧ trace (step (@Op_resolveWebviewView test_host "h1" "cats" "boom" 42)
                cats_failing) = []
     ∨ ExtHostWebviewViews._webviewViews
         (final (step (@Op_resolveWebviewView test_host "h1" "cats" "boom" 42)
                   cats_failing)) !! "h1" = Some 0).
Proof.
  assert (result (step (@Op_resolveWebviewView test_host "h1" "cats" "boom" 42)
                    cats_failing) = Throw "boom") as Hthrow by reflexivity.
  split; [exact Hthrow|].
  destruct (throw_changes_nothing_unless_provider_failed (H := test_host)
              [@Op_registerWebviewViewProvider test_host 7 "cats" 0 None]
              (@Op_resolveWebviewView test_host "h1" "cats" "boom" 42)
              "boom" Hthrow)
    as [Hsame|Hfailed].
  - left. exact Hsame.
  - right. reflexivity.
Defined.

(** The first view of "cats". *)
Lemma resolve_creates_fresh_visible_view_witness :
  ExtHostWebviewViews._viewProviders cats_registered !! "cats"
    = Some {| ExtHostWebviewViews.provider := 3;
              ExtHostWebviewViews.extension := 7 |}
  ∧ ExtHostWebviewViews.heap
      (final (ExtHostWebviewViews.resolveWebviewView "h1" "cats" "st" 42
                cats_registered))
    = [cats_view]
  ∧ ExtHostWebviewViews.call 0 ExtHostWebviewView.visible
      (final (ExtHostWebviewViews.resolveWebviewView "h1" "cats" "st" 42
                cats_registered))
    = mkOutcome (Ok true)
        (final (ExtHostWebviewViews.resolveWebviewView "h1" "cats" "st" 42
                  cats_registered)) [].
Proof.
  assert (ExtHostWebviewViews._viewProviders cats_registered !! "cats"
          = Some {| ExtHostWebviewViews.provider := 3;
                    ExtHostWebviewViews.extension := 7 |}) as He
    by reflexivity.
  split; [exact He|].
  destruct (resolve_creates_fresh_visible_view (H := test_host)
              "h1" "cats" "st" 42 _ cats_registered He)
    as (_ & Hheap & _ & _ & Hvis & _).
  split; [exact Hheap | exact Hvis].
Defined.

(** "h1" is resolved a second time; the main thread then hides and
    disposes "h1".  The first wrapper is as it was. *)
Lemma resolve_again_orphans_wrapper_witness :
  ExtHostWebviewViews._webviewViews cats_resolved !! "h1" = Some 0
  ∧ ExtHostWebviewViews.heap cats_resolved !! 0 = Some cats_view
  ∧ ExtHostWebviewViews.heap
      (state_after
         [@Op_onDidChangeWebviewViewVisibility test_host "h1" false;
          @Op_disposeWebviewView test_host "h1"]
         (final (ExtHostWebviewViews.resolveWebviewView "h1" "cats" "st" 43
                   cats_resolved))) !! 0
    = Some cats_view.
Proof.
  assert (ExtHostWebviewViews._viewProviders cats_resolved !! "cats"
          = Some {| ExtHostWebviewViews.provider := 3;
                    ExtHostWebviewViews.extension := 7 |}) as He
    by reflexivity.
  assert (ExtHostWebviewViews._webviewViews cats_resolved !! "h1" = Some 0)
    as Hr by reflexivity.
  assert (ExtHostWebviewViews.heap cats_resolved !! 0 = Some cats_view)
    as Hv by reflexivity.
  split; [exact Hr|]. split; [exact Hv|].
  destruct (resolve_again_orphans_wrapper (H := test_host)
              [@Op_registerWebviewViewProvider test_host 7 "cats" 3 None;
               @Op_resolveWebviewView test_host "h1" "cats" "st" 42]
              [@Op_onDidChangeWebviewViewVisibility test_host "h1" false;
               @Op_disposeWebviewView test_host "h1"]
              "h1" "cats" "st" 43 _ 0 cats_view He Hr Hv eq_refl)
    as (_ & _ & _ & _ & Hkept & _).
  exact Hkept.
Defined.

(** "cats" stays registered while a view is resolved, a registration of
    "dogs" is disposed and a second registration of "cats" is tried. *)
Lemma registration_persists_witness :
  result (ExtHostWebviewViews.registerWebviewViewProvider 7 "cats" 3 None
            ExtHostWebviewViews.constructor)
    = Ok {| captured_viewType := "cats" |}
  ∧ ExtHostWebviewViews._viewProviders
      (state_after
         [@Op_resolveWebviewView test_host "h1" "cats" "st" 42;
          @Op_Disposable_dispose test_host {| captured_viewType := "dogs" |};
          @Op_registerWebviewViewProvider test_host 8 "cats" 4 None]
         (final (ExtHostWebviewViews.registerWebviewViewProvider 7 "cats" 3 None
                   ExtHostWebviewViews.constructor))) !! "cats"
    = Some {| ExtHostWebviewViews.provider := 3;
              ExtHostWebviewViews.extension := 7 |}.
Proof.
  assert (result (ExtHostWebviewViews.registerWebviewViewProvider 7 "cats" 3
                    None ExtHostWebviewViews.constructor)
          = Ok {| captured_viewType := "cats" |}) as Hok by reflexivity.
  split; [exact Hok|].
  exact (proj1 (registration_persists (H := test_host) 7 "cats" 3 None
                  {| captured_viewType := "cats" |}
                  [@Op_resolveWebviewView test_host "h1" "cats" "st" 42;
                   @Op_Disposable_dispose test_host
                      {| captured_viewType := "dogs" |};
                   @Op_registerWebviewViewProvider test_host 8 "cats" 4 None]
                  ExtHostWebviewViews.constructor Hok eq_refl)).
Defined.

(** The fresh view is titled "Cats" and the title is read back. *)
Lemma title_roundtrip_witness :
  ExtHostWebviewView._isDisposed cats_view = false
  ∧ result
      (ExtHostWebviewView.title
         (final (ExtHostWebviewView.set_title (Some "Cats") cats_view)))
    = Ok (Some "Cats").
Proof.
  split; [reflexivity|].
  exact (f_equal result
           (proj1 (title_roundtrip (H := test_host) (Some "Cats") cats_view
                     eq_refl))).
Defined.

(** Four assignments, two of which change nothing. *)
Lemma titles_reach_main_thread_witness :
  ExtHostWebviewView._isDisposed cats_view = false
  ∧ ExtHostWebviewView._title
      (final (assign_titles [Some "a"; Some "a"; None; None] cats_view))
    = None
  ∧ title_on_main None
      (trace (assign_titles [Some "a"; Some "a"; None; None] cats_view))
    = None.
Proof.
  split; [reflexivity|].
  destruct (titles_reach_main_thread (H := test_host)
              [Some "a"; Some "a"; None; None] cats_view eq_refl)
    as (_ & Hlast & Hmain & _).
  split; [exact Hlast|].
  exact (eq_trans Hmain Hlast).
Defined.

(** The resolved view keeps its view type through disposal and hiding. *)
Lemma readonly_fields_never_change_witness :
  ExtHostWebviewViews.heap cats_resolved !! 0 = Some cats_view
  ∧ ExtHostWebviewViews.call 0 ExtHostWebviewView.viewType
      cats_disposed_then_hidden
    = mkOutcome (Ok "cats") cats_disposed_then_hidden [].
Proof.
  assert (ExtHostWebviewViews.heap cats_resolved !! 0 = Some cats_view)
    as Hv by reflexivity.
  split; [exact Hv|].
  destruct (readonly_fields_never_change (H := test_host)
              [@Op_view_dispose test_host 0;
               @Op_onDidChangeWebviewViewVisibility test_host "h1" false]
              0 cats_view cats_resolved Hv)
    as (v' & _ & _ & Htype & _).
  exact Htype.
Defined.

(** A disposed view that is assigned a title and then hidden. *)
Lemma disposed_title_is_frozen_witness :
  ExtHostWebviewViews.heap cats_disposed_then_hidden !! 0
    = Some (ExtHostWebviewView.with_isVisible false
              (ExtHostWebviewView.with_isDisposed true cats_view))
  ∧ ∃ v',
      ExtHostWebviewViews.heap
        (state_after
           [@Op_view_set_title test_host 0 (Some "Cats");
            @Op_onDidChangeWebviewViewVisibility test_host "h1" true]
           cats_disposed_then_hidden) !! 0 = Some v'
      ∧ ExtHostWebviewView._title v' = None.
Proof.
  assert (ExtHostWebviewViews.heap cats_disposed_then_hidden !! 0
          = Some (ExtHostWebviewView.with_isVisible false
                    (ExtHostWebviewView.with_isDisposed true cats_view)))
    as Hv by reflexivity.
  split; [exact Hv|].
  destruct (disposed_title_is_frozen (H := test_host)
              [@Op_view_set_title test_host 0 (Some "Cats");
               @Op_onDidChangeWebviewViewVisibility test_host "h1" true]
              0 _ cats_disposed_then_hidden Hv eq_refl)
    as (v' & Hv' & _ & Htitle).
  exists v'. split; [exact Hv' | exact Htitle].
Defined.
